(** * A shallow embedding of the HIL simulation example and of the
      placeholder modules of gnc-autonomous-system.

    Python floats are modelled as real numbers ([R]): arithmetic is exact,
    rounding and the special values of IEEE arithmetic are outside the model.
    Module [Binary64] embeds the control law and the integration step once
    more on binary64 numbers, for the properties that depend on rounding.
    A numpy array of three floats is a record of three reals, a dict with a
    fixed set of keys is a record, [self] is threaded through a small state
    monad that also carries the text printed on standard output and the
    position reached in the pseudo-random source. *)

From Stdlib Require Import Reals Lra Lia List String Arith.
From Stdlib Require PrimFloat.
Import ListNotations.

Open Scope R_scope.

(** ** numpy arrays of shape (3,) *)

Record Vec3 : Type := mkVec3 { vx : R; vy : R; vz : R }.

Definition np_array (a b c : R) : Vec3 := mkVec3 a b c.

(** [np.zeros(3)] *)
Definition np_zeros3 : Vec3 := mkVec3 0 0 0.

(** [u + v], [u - v], [k * v] and a ufunc applied to an array. *)
Definition vadd (u v : Vec3) : Vec3 :=
  mkVec3 (vx u + vx v) (vy u + vy v) (vz u + vz v).

Definition vsub (u v : Vec3) : Vec3 :=
  mkVec3 (vx u - vx v) (vy u - vy v) (vz u - vz v).

Definition vscale (k : R) (v : Vec3) : Vec3 :=
  mkVec3 (k * vx v) (k * vy v) (k * vz v).

Definition vmap (f : R -> R) (v : Vec3) : Vec3 :=
  mkVec3 (f (vx v)) (f (vy v)) (f (vz v)).

Definition vmap2 (f : R -> R -> R) (u v : Vec3) : Vec3 :=
  mkVec3 (f (vx u) (vx v)) (f (vy u) (vy v)) (f (vz u) (vz v)).

(** [np.linalg.norm] of a 3-vector *)
Definition norm (v : Vec3) : R :=
  sqrt (vx v * vx v + vy v * vy v + vz v * vz v).

Declare Scope vec_scope.
Delimit Scope vec_scope with vec.
Bind Scope vec_scope with Vec3.
Infix "+v" := vadd (at level 50, left associativity) : vec_scope.
Infix "-v" := vsub (at level 50, left associativity) : vec_scope.
Infix "*v" := vscale (at level 40, left associativity) : vec_scope.
Open Scope vec_scope.

(** [np.arctan2 y x]: the angle of the point [(x, y)], quadrant by quadrant
    as the C library function computes it (signed zeros apart). *)
Definition arctan2 (y x : R) : R :=
  match total_order_T x 0 with
  | inleft (left _) =>            (* x < 0 *)
      if Rle_dec 0 y then atan (y / x) + PI else atan (y / x) - PI
  | inleft (right _) =>           (* x = 0 *)
      match total_order_T y 0 with
      | inleft (left _) => - (PI / 2)
      | inleft (right _) => 0
      | inright _ => PI / 2
      end
  | inright _ => atan (y / x)     (* 0 < x *)
  end.

(** The normalisation applied to each attitude angle by
    [propagate_dynamics]: [np.arctan2(np.sin(a), np.cos(a))]. *)
Definition wrap_angle (a : R) : R := arctan2 (sin a) (cos a).

(** ** The dictionaries of the simulator *)

(** [self.state] *)
Record SpacecraftState : Type := mkState {
  position : Vec3;          (* km *)
  velocity : Vec3;          (* km/s *)
  attitude : Vec3;          (* rad (roll, pitch, yaw) *)
  angular_velocity : Vec3   (* rad/s *)
}.

(** The value returned by [generate_sensor_measurements] *)
Record SensorData : Type := mkSensorData {
  imu_accel : Vec3;
  imu_gyro : Vec3;
  star_tracker : Vec3;
  lidar_range : R;
  camera_position : Vec3
}.

(** The value returned by [compute_control] *)
Record Commands : Type := mkCommands {
  thrust : Vec3;
  torque : Vec3
}.

(** An entry of [self.test_log] *)
Record LogEntry : Type := mkLogEntry {
  log_time : R;
  log_position : Vec3;
  log_velocity : Vec3;
  position_error : R;
  velocity_error : R;
  thrust_magnitude : R
}.

(** The attributes of a [HILSimulator] *)
Record HILSimulator : Type := mkSim {
  dt : R;
  time : R;
  state : SpacecraftState;
  test_log : list LogEntry
}.

(** ** Standard output, exceptions and the monad of the methods *)

(** One constructor per [print] of the source; the values interpolated in
    the f-string are kept, their formatting is not modelled.  [None] in an
    aggregate stands for numpy's nan. *)
Inductive Line : Type :=
| StartingTest (scenario : string)
| DurationLine (duration : R)
| UpdateRate (hz : R)
| Dashes
| TestComplete (iterations : nat)
| WarnPositionError (pos_error : R)
| WarnDescentTooSlow (altitude : R)
| FinalStateHeader
| FinalPosition (p : Vec3)
| FinalVelocity (v : Vec3)
| FinalPositionError (e : R)
| FinalVelocityError (e : R)
| StatisticsHeader
| MeanPositionError (m : option R)
| MaxPositionError (m : R)
| MeanVelocityError (m : option R)
| MaxVelocityError (m : R).

Inductive exn : Type :=
| ZeroDivisionError
| IndexError
| ValueError.

(** What a method runs in: the simulator object, the number of draws
    already taken from [np.random], and what has been printed so far
    (oldest line first). *)
Record World : Type := mkWorld {
  self : HILSimulator;
  rng_pos : nat;
  stdout : list Line
}.

(** A call returns normally with a value and a new world, raises, or (for
    the loop, which is given fuel) has not finished yet. *)
Inductive outcome (A : Type) : Type :=
| Ok (a : A) (w : World)
| Raised (e : exn)
| OutOfFuel.

Arguments Ok {A} a w.
Arguments Raised {A} e.
Arguments OutOfFuel {A}.

Definition M (A : Type) : Type := World -> outcome A.

Definition ret {A} (a : A) : M A := fun w => Ok a w.

Definition bind {A B} (m : M A) (k : A -> M B) : M B :=
  fun w =>
    match m w with
    | Ok a w' => k a w'
    | Raised e => Raised e
    | OutOfFuel => OutOfFuel
    end.

Notation "x <- m ;; k" := (bind m (fun x => k))
  (at level 61, m at next level, right associativity).
Notation "m ;;; k" := (bind m (fun _ => k))
  (at level 61, right associativity).

Definition raise {A} (e : exn) : M A := fun _ => Raised e.

Definition get_self : M HILSimulator := fun w => Ok (self w) w.

Definition put_self (s : HILSimulator) : M unit :=
  fun w => Ok tt (mkWorld s (rng_pos w) (stdout w)).

Definition print (l : Line) : M unit :=
  fun w => Ok tt (mkWorld (self w) (rng_pos w) (stdout w ++ [l])).

(** Attribute and item assignments on [self]. *)
Definition set_time (t : R) (s : HILSimulator) : HILSimulator :=
  mkSim (dt s) t (state s) (test_log s).

Definition set_state (st : SpacecraftState) (s : HILSimulator) : HILSimulator :=
  mkSim (dt s) (time s) st (test_log s).

Definition set_test_log (l : list LogEntry) (s : HILSimulator) : HILSimulator :=
  mkSim (dt s) (time s) (state s) l.

Definition set_position (p : Vec3) (st : SpacecraftState) : SpacecraftState :=
  mkState p (velocity st) (attitude st) (angular_velocity st).

Definition set_velocity (v : Vec3) (st : SpacecraftState) : SpacecraftState :=
  mkState (position st) v (attitude st) (angular_velocity st).

Definition set_attitude (a : Vec3) (st : SpacecraftState) : SpacecraftState :=
  mkState (position st) (velocity st) a (angular_velocity st).

Definition set_angular_velocity (o : Vec3) (st : SpacecraftState) : SpacecraftState :=
  mkState (position st) (velocity st) (attitude st) o.

(** ** numpy reductions used by the final report *)

Definition np_sum (l : list R) : R := fold_right Rplus 0 l.

(** [np.mean]: the sum over the length; nan ([None]) on an empty sequence. *)
Definition np_mean (l : list R) : option R :=
  match l with
  | [] => None
  | _ :: _ => Some (np_sum l / INR (List.length l))
  end.

(** [np.max]: raises [ValueError] on an empty sequence. *)
Definition np_max (l : list R) : M R :=
  match l with
  | [] => raise ValueError
  | x :: l' => ret (fold_left Rmax l' x)
  end.

(** [l[-1]]: raises [IndexError] on an empty list. *)
Definition last_item {A} (l : list A) : M A :=
  match rev l with
  | [] => raise IndexError
  | x :: _ => ret x
  end.

(** ** class HILSimulator *)

Section Simulator.

(** The process-wide source behind [np.random.randn]: [gauss k] is the
    [k]-th standard normal sample it delivers. *)
Variable gauss : nat -> R.

(** [np.random.randn()] *)
Definition randn : M R :=
  fun w => Ok (gauss (rng_pos w)) (mkWorld (self w) (S (rng_pos w)) (stdout w)).

(** [np.random.randn(3)] *)
Definition randn3 : M Vec3 :=
  a <- randn ;; b <- randn ;; c <- randn ;; ret (np_array a b c).

Definition initial_state : SpacecraftState :=
  mkState (np_array 2500 200 (-50))
          (np_array 0.1 (-0.05) 0.02)
          (np_array 0 0 0)
          (np_array 0 0 0).

Definition initialize_state : M unit :=
  s <- get_self ;;
  put_self (set_state initial_state s).

(** [HILSimulator(dt)]: [__init__] sets [dt], [time = 0.0], an empty
    [test_log], and calls [initialize_state] on the new object. *)
Definition HILSimulator_init (dt0 : R) : HILSimulator :=
  mkSim dt0 0 initial_state [].

Definition generate_sensor_measurements : M SensorData :=
  n_accel <- randn3 ;;
  n_gyro <- randn3 ;;
  n_star <- randn3 ;;
  s <- get_self ;;
  let star_tracker_attitude := attitude (state s) +v 1e-6 *v n_star in
  let true_range := norm (position (state s)) * 1000 in
  n_lidar <- randn ;;
  let lidar := true_range + n_lidar * 0.1 in
  n_cam <- randn3 ;;
  let camera := position (state s) +v 0.001 *v n_cam in
  ret (mkSensorData (1e-4 *v n_accel) (1e-6 *v n_gyro)
                    star_tracker_attitude lidar camera).

(** The estimated state is a dict of the same shape as [self.state]. *)
Definition estimate_state (sensor_data : SensorData) : M SpacecraftState :=
  s <- get_self ;;
  ret (mkState (camera_position sensor_data)
               (velocity (state s))
               (star_tracker sensor_data)
               (angular_velocity (state s))).

(** [compute_guidance] and [compute_control] read neither [self] nor the
    random source and print nothing: they are functions of their
    arguments. *)
Definition compute_guidance (current_state : SpacecraftState)
    (scenario : string) : SpacecraftState :=
  let '(target_position, target_velocity) :=
    if String.eqb scenario "RDV" then
      (np_array 20 0 0, np_array 0 0 0)
    else if String.eqb scenario "TAG" then
      (np_array 0 0 0, np_array 0 0 (-0.0001))
    else
      (np_zeros3, np_zeros3) in
  mkState target_position target_velocity np_zeros3 np_zeros3.

Definition Kp_pos : R := 0.01.
Definition Kd_pos : R := 0.1.
Definition Kp_att : R := 0.1.
Definition Kd_att : R := 0.05.

Definition compute_control (current_state desired_state : SpacecraftState)
    : Commands :=
  let pos_error := position desired_state -v position current_state in
  let vel_error := velocity desired_state -v velocity current_state in
  let thrust_command := Kp_pos *v pos_error +v Kd_pos *v vel_error in
  let att_error := attitude desired_state -v attitude current_state in
  let ang_vel_error :=
    angular_velocity desired_state -v angular_velocity current_state in
  let torque_command := Kp_att *v att_error +v Kd_att *v ang_vel_error in
  mkCommands thrust_command torque_command.

Definition apply_actuator_commands (commands : Commands) : M unit :=
  s <- get_self ;;
  let st := state s in
  let st := set_velocity (velocity st +v dt s *v thrust commands) st in
  let st :=
    set_angular_velocity (angular_velocity st +v dt s *v torque commands) st in
  put_self (set_state st s).

Definition propagate_dynamics : M unit :=
  s <- get_self ;;
  let st := state s in
  let st := set_position (position st +v dt s *v velocity st) st in
  let st := set_attitude (attitude st +v dt s *v angular_velocity st) st in
  let st :=
    set_attitude (vmap2 arctan2 (vmap sin (attitude st))
                                (vmap cos (attitude st))) st in
  put_self (set_time (time s + dt s) (set_state st s)).

Definition log_data (estimated_state desired_state : SpacecraftState)
    (commands : Commands) (sensor_data : SensorData) : M unit :=
  s <- get_self ;;
  let log_entry :=
    mkLogEntry (time s)
               (position (state s))
               (velocity (state s))
               (norm (position desired_state -v position estimated_state))
               (norm (velocity desired_state -v velocity estimated_state))
               (norm (thrust commands)) in
  put_self (set_test_log (test_log s ++ [log_entry]) s).

Definition check_success_criteria (scenario : string) : M bool :=
  s <- get_self ;;
  if String.eqb scenario "RDV" then
    let pos_error := norm (position (state s) -v np_array 20 0 0) in
    let vel_error := norm (velocity (state s)) in
    if Rgt_dec pos_error 10 then
      print (WarnPositionError pos_error) ;;;
      ret false
    else ret true
  else if String.eqb scenario "TAG" then
    let altitude := norm (position (state s)) in
    if Rgt_dec altitude 0.1 then
      if Rgt_dec (time s) 50 then
        print (WarnDescentTooSlow altitude) ;;;
        ret false
      else ret true
    else ret true
  else ret true.

Definition print_final_statistics : M unit :=
  s <- get_self ;;
  if Nat.eqb (List.length (test_log s)) 0 then ret tt
  else
    final_entry <- last_item (test_log s) ;;
    print FinalStateHeader ;;;
    print (FinalPosition (log_position final_entry)) ;;;
    print (FinalVelocity (velocity (state s))) ;;;
    print (FinalPositionError (position_error final_entry)) ;;;
    print (FinalVelocityError (velocity_error final_entry)) ;;;
    let pos_errors := map position_error (test_log s) in
    let vel_errors := map velocity_error (test_log s) in
    print StatisticsHeader ;;;
    print (MeanPositionError (np_mean pos_errors)) ;;;
    max_pos <- np_max pos_errors ;;
    print (MaxPositionError max_pos) ;;;
    print (MeanVelocityError (np_mean vel_errors)) ;;;
    max_vel <- np_max vel_errors ;;
    print (MaxVelocityError max_vel).

(** [estimated_state['velocity']] and [estimated_state['angular_velocity']]
    are the very arrays held by [self.state], which
    [apply_actuator_commands] updates in place: read after that call, the
    estimated state shows the updated values. *)
Definition through_aliases (estimated_state : SpacecraftState)
    : M SpacecraftState :=
  s <- get_self ;;
  ret (mkState (position estimated_state)
               (velocity (state s))
               (attitude estimated_state)
               (angular_velocity (state s))).

(** The body of the main test loop: steps 1 to 7 ... *)
Definition sense_to_log (scenario : string) : M unit :=
  (* 1. Generate sensor measurements *)
  sensor_data <- generate_sensor_measurements ;;
  (* 2. Navigation - State estimation *)
  estimated_state <- estimate_state sensor_data ;;
  (* 3. Guidance - Compute desired trajectory *)
  let desired_state := compute_guidance estimated_state scenario in
  (* 4. Control - Compute actuator commands *)
  let commands := compute_control estimated_state desired_state in
  (* 5. Apply commands to simulator *)
  apply_actuator_commands commands ;;;
  (* 6. Propagate dynamics *)
  propagate_dynamics ;;;
  (* 7. Log test data *)
  estimated_state' <- through_aliases estimated_state ;;
  log_data estimated_state' desired_state commands sensor_data.

(** ... and step 8, the check of the success criteria every 10 iterations,
    whose result the loop drops. *)
Definition loop_body (scenario : string) (iteration : nat) : M unit :=
  sense_to_log scenario ;;;
  if Nat.eqb (iteration mod 10) 0 then
    check_success_criteria scenario ;;; ret tt
  else ret tt.

(** [while self.time < duration: ...; iteration += 1], with fuel for the
    number of iterations; the result is the final value of [iteration]. *)
Fixpoint main_loop (fuel : nat) (scenario : string) (duration : R)
    (iteration : nat) (w : World) {struct fuel} : outcome nat :=
  if Rlt_dec (time (self w)) duration then
    match fuel with
    | O => OutOfFuel
    | S fuel' =>
        (loop_body scenario iteration ;;;
         main_loop fuel' scenario duration (S iteration)) w
    end
  else Ok iteration w.

Definition run_test_scenario (fuel : nat) (scenario : string) (duration : R)
    : M unit :=
  print (StartingTest scenario) ;;;
  print (DurationLine duration) ;;;
  s <- get_self ;;
  (if Req_dec_T (dt s) 0 then raise ZeroDivisionError
   else print (UpdateRate (1 / dt s))) ;;;
  print Dashes ;;;
  initialize_state ;;;
  (s <- get_self ;; put_self (set_test_log [] s)) ;;;
  iteration <- main_loop fuel scenario duration 0%nat ;;
  print Dashes ;;;
  print (TestComplete iteration) ;;;
  print_final_statistics.

End Simulator.

(** ** The placeholder modules

    [mission_parameters.py], [orbital_mechanics.py],
    [trajectory_optimizer.py], [data_processing.py] and
    [visualization_tools.py] each define one class with the same three
    methods. *)

(** The Python values these methods are given. *)
Inductive pyvalue : Type :=
| PyNone
| PyFloat (x : R)
| PyStr (s : string)
| PyArray (a : list R).

(** [x is not None] *)
Definition is_not_None (x : pyvalue) : bool :=
  match x with
  | PyNone => false
  | _ => true
  end.

Definition pydict : Type := list (string * pyvalue).

(** [parameters or {}] with [parameters : Optional[dict]] *)
Definition or_empty (parameters : option pydict) : pydict :=
  match parameters with
  | Some (kv :: d) => kv :: d
  | _ => []
  end.

Module MissionParameters.
Record t : Type := mk { parameters : pydict }.
Definition init (parameters : option pydict) : t := mk (or_empty parameters).
Definition calculate (self : t) (input_data : pyvalue) : pyvalue := input_data.
Definition validate (self : t) (data : pyvalue) : bool := is_not_None data.
End MissionParameters.

Module OrbitalMechanics.
Record t : Type := mk { parameters : pydict }.
Definition init (parameters : option pydict) : t := mk (or_empty parameters).
Definition calculate (self : t) (input_data : pyvalue) : pyvalue := input_data.
Definition validate (self : t) (data : pyvalue) : bool := is_not_None data.
End OrbitalMechanics.

Module TrajectoryOptimizer.
Record t : Type := mk { parameters : pydict }.
Definition init (parameters : option pydict) : t := mk (or_empty parameters).
Definition calculate (self : t) (input_data : pyvalue) : pyvalue := input_data.
Definition validate (self : t) (data : pyvalue) : bool := is_not_None data.
End TrajectoryOptimizer.

Module DataProcessing.
Record t : Type := mk { parameters : pydict }.
Definition init (parameters : option pydict) : t := mk (or_empty parameters).
Definition calculate (self : t) (input_data : pyvalue) : pyvalue := input_data.
Definition validate (self : t) (data : pyvalue) : bool := is_not_None data.
End DataProcessing.

Module VisualizationTools.
Record t : Type := mk { parameters : pydict }.
Definition init (parameters : option pydict) : t := mk (or_empty parameters).
Definition calculate (self : t) (input_data : pyvalue) : pyvalue := input_data.
Definition validate (self : t) (data : pyvalue) : bool := is_not_None data.
End VisualizationTools.

(** An object of any of the five classes, and the dispatch of a method call
    on its class. *)
Inductive placeholder : Type :=
| AMissionParameters (o : MissionParameters.t)
| AnOrbitalMechanics (o : OrbitalMechanics.t)
| ATrajectoryOptimizer (o : TrajectoryOptimizer.t)
| ADataProcessing (o : DataProcessing.t)
| AVisualizationTools (o : VisualizationTools.t).

Definition call_calculate (obj : placeholder) (input_data : pyvalue) : pyvalue :=
  match obj with
  | AMissionParameters o => MissionParameters.calculate o input_data
  | AnOrbitalMechanics o => OrbitalMechanics.calculate o input_data
  | ATrajectoryOptimizer o => TrajectoryOptimizer.calculate o input_data
  | ADataProcessing o => DataProcessing.calculate o input_data
  | AVisualizationTools o => VisualizationTools.calculate o input_data
  end.

Definition call_validate (obj : placeholder) (data : pyvalue) : bool :=
  match obj with
  | AMissionParameters o => MissionParameters.validate o data
  | AnOrbitalMechanics o => OrbitalMechanics.validate o data
  | ATrajectoryOptimizer o => TrajectoryOptimizer.validate o data
  | ADataProcessing o => DataProcessing.validate o data
  | AVisualizationTools o => VisualizationTools.validate o data
  end.

(** ** Derived notions used to state the properties *)

(** [n] successive calls of a method. *)
Fixpoint repeat_call (n : nat) (m : M unit) : M unit :=
  match n with
  | O => ret tt
  | S n' => m ;;; repeat_call n' m
  end.

(** A random source that only delivers zeros: the noise-free readings. *)
Definition zero_noise : nat -> R := fun _ => 0.

(** The simulator after steps 1 to 7 of an iteration that starts from the
    simulator [s] with [p] draws already taken. *)
Definition after_steps (gauss : nat -> R) (scenario : string)
    (s : HILSimulator) (p : nat) : HILSimulator :=
  match sense_to_log gauss scenario (mkWorld s p []) with
  | Ok _ w' => self w'
  | _ => s
  end.

(** The part of a world that [print] does not touch. *)
Definition same_sim (w1 w2 : World) : Prop :=
  self w1 = self w2 /\ rng_pos w1 = rng_pos w2.

(** ** Concrete simulators and states used as test inputs *)

(** A simulator that has already run for 100 s: what [run_test_scenario]
    leaves behind for a second run on the same object. *)
Definition used_simulator : World :=
  mkWorld (mkSim 0.1 100
             (mkState (np_array 2400 150 (-30)) (np_array (-1) 0 0)
                      (np_array 0.5 0 0) (np_array 0.01 0 0))
             [])
          0 [].

(** A fresh simulator whose true state spins about the first axis. *)
Definition spinning_simulator : World :=
  mkWorld (mkSim 0.1 0
             (mkState (np_array 3 4 0) (np_array 0 0 0)
                      (np_array 0 0 0) (np_array 1 0 0))
             [])
          0 [].

(** Simulators whose true position is at 10.0 km and at 10.0001 km from
    (20, 0, 0). *)
Definition simulator_at (x : R) : World :=
  mkWorld (mkSim 0.1 0
             (mkState (np_array x 0 0) (np_array 0 0 0)
                      (np_array 0 0 0) (np_array 0 0 0))
             [])
          0 [].

(** ** Notions and inputs used by the further properties *)

(** An angle of the interval (-pi, pi]. *)
Definition in_half_turn (a : R) : Prop := - PI < a <= PI.

(** Every attitude angle of a state lies in (-pi, pi]. *)
Definition attitude_wrapped (st : SpacecraftState) : Prop :=
  in_half_turn (vx (attitude st)) /\
  in_half_turn (vy (attitude st)) /\
  in_half_turn (vz (attitude st)).

(** The three scalars of a log entry are not negative. *)
Definition entry_nonneg (e : LogEntry) : Prop :=
  0 <= position_error e /\ 0 <= velocity_error e /\ 0 <= thrust_magnitude e.

Definition zero_commands : Commands := mkCommands np_zeros3 np_zeros3.

(** A simulator 60 s into a run and still 5 km above the surface. *)
Definition late_high_simulator : World :=
  mkWorld (mkSim 0.1 60
             (mkState (np_array 0 0 5) (np_array 0 0 0)
                      (np_array 0 0 0) (np_array 0 0 0))
             [])
          0 [].

(** A simulator built with [dt = 0]. *)
Definition stalled_simulator : World :=
  mkWorld (HILSimulator_init 0) 0 [].

(** A simulator built with the default step [dt = 0.1]. *)
Definition fresh_simulator : World :=
  mkWorld (HILSimulator_init 0.1) 0 [].

(** Two calls end the same way: both return, in simulators and at
    positions of the random source that agree, or both raise the same
    exception, or both are still running. *)
Definition agree {A} (r1 r2 : outcome A) : Prop :=
  match r1, r2 with
  | Ok a1 w1, Ok a2 w2 => a1 = a2 /\ same_sim w1 w2
  | Raised e1, Raised e2 => e1 = e2
  | OutOfFuel, OutOfFuel => True
  | _, _ => False
  end.

(** The world in which [run_test_scenario] enters its loop: banner
    printed, state reset, log cleared; [dt] and [time] are those of the
    simulator it was called on. *)
Definition loop_entry (scenario : string) (duration : R) (w : World) : World :=
  mkWorld (mkSim (dt (self w)) (time (self w)) initial_state [])
          (rng_pos w)
          (stdout w ++ [StartingTest scenario; DurationLine duration;
                        UpdateRate (1 / dt (self w)); Dashes]).

(** What the loop keeps true of a run with step [d]. *)
Definition run_invariant (d : R) (w : World) : Prop :=
  dt (self w) = d /\
  attitude_wrapped (state (self w)) /\
  Forall entry_nonneg (test_log (self w)).

(** Another simulator at 100 s with the step of [used_simulator], but with
    a different state and a log that is not empty. *)
Definition other_used_simulator : World :=
  mkWorld (mkSim 0.1 100
             (mkState (np_array 7 8 9) (np_array 0 1 0)
                      (np_array 0 0 3) (np_array 0 0 0.2))
             [mkLogEntry 99.9 (np_array 7 8 9) (np_array 0 1 0) 1 2 3])
          0 [Dashes].

(** The single entry of the log of [other_used_simulator]. *)
Definition other_entry : LogEntry :=
  mkLogEntry 99.9 (np_array 7 8 9) (np_array 0 1 0) 1 2 3.

(** A simulator resting at the rendezvous target. *)
Definition at_target : SpacecraftState :=
  mkState (np_array 20 0 0) (np_array 0 0 0) (np_array 0 0 0) (np_array 0 0 0).

(** ** The arithmetic of the control law and of the integration on
       binary64

    Where a property depends on how Python rounds, the real-number model
    above says nothing.  This module embeds [compute_control] and
    [propagate_dynamics] once more, operation by operation, on IEEE 754
    binary64 numbers (Python's [float], numpy's [float64]), whose sum,
    difference and product are the kernel's primitive operations.  The
    three numpy functions used by the attitude wrapping, whose rounding
    depends on the platform's mathematical library, are parameters. *)

Module Binary64.

Import PrimFloat.
#[local] Set Warnings "-inexact-float".
#[local] Open Scope float_scope.

Record Vec3 : Type := mkVec3 { vx : float; vy : float; vz : float }.

Definition np_array (a b c : float) : Vec3 := mkVec3 a b c.

(** [u + v], [u - v], [k * v] (scalar first) and [v * k] (array first). *)
Definition vadd (u v : Vec3) : Vec3 :=
  mkVec3 (vx u + vx v) (vy u + vy v) (vz u + vz v).

Definition vsub (u v : Vec3) : Vec3 :=
  mkVec3 (vx u - vx v) (vy u - vy v) (vz u - vz v).

Definition smul (k : float) (v : Vec3) : Vec3 :=
  mkVec3 (k * vx v) (k * vy v) (k * vz v).

Definition vmul (v : Vec3) (k : float) : Vec3 :=
  mkVec3 (vx v * k) (vy v * k) (vz v * k).

Definition vmap (f : float -> float) (v : Vec3) : Vec3 :=
  mkVec3 (f (vx v)) (f (vy v)) (f (vz v)).

Definition vmap2 (f : float -> float -> float) (u v : Vec3) : Vec3 :=
  mkVec3 (f (vx u) (vx v)) (f (vy u) (vy v)) (f (vz u) (vz v)).

Record SpacecraftState : Type := mkState {
  position : Vec3;
  velocity : Vec3;
  attitude : Vec3;
  angular_velocity : Vec3
}.

Record Commands : Type := mkCommands {
  thrust : Vec3;
  torque : Vec3
}.

Definition Kp_pos : float := 0.01.
Definition Kd_pos : float := 0.1.
Definition Kp_att : float := 0.1.
Definition Kd_att : float := 0.05.

Definition compute_control (current_state desired_state : SpacecraftState)
    : Commands :=
  let pos_error := vsub (position desired_state) (position current_state) in
  let vel_error := vsub (velocity desired_state) (velocity current_state) in
  let thrust_command :=
    vadd (smul Kp_pos pos_error) (smul Kd_pos vel_error) in
  let att_error := vsub (attitude desired_state) (attitude current_state) in
  let ang_vel_error :=
    vsub (angular_velocity desired_state) (angular_velocity current_state) in
  let torque_command :=
    vadd (smul Kp_att att_error) (smul Kd_att ang_vel_error) in
  mkCommands thrust_command torque_command.

(** The attributes of the simulator that [propagate_dynamics] reads or
    writes. *)
Record HILSimulator : Type := mkSim {
  dt : float;
  time : float;
  state : SpacecraftState
}.

Section Dynamics.

(** [np.sin], [np.cos] and [np.arctan2] on binary64. *)
Variables (np_sin np_cos : float -> float)
          (np_arctan2 : float -> float -> float).

Definition propagate_dynamics (s : HILSimulator) : HILSimulator :=
  let st := state s in
  let st :=
    mkState (vadd (position st) (vmul (velocity st) (dt s)))
            (velocity st) (attitude st) (angular_velocity st) in
  let st :=
    mkState (position st) (velocity st)
            (vadd (attitude st) (vmul (angular_velocity st) (dt s)))
            (angular_velocity st) in
  let st :=
    mkState (position st) (velocity st)
            (vmap2 np_arctan2 (vmap np_sin (attitude st))
                              (vmap np_cos (attitude st)))
            (angular_velocity st) in
  mkSim (dt s) (time s + dt s) st.

(** [n] successive calls. *)
Definition propagate_dynamics_times (n : nat) (s : HILSimulator)
    : HILSimulator :=
  Nat.iter n propagate_dynamics s.

End Dynamics.

(** Inputs: a spacecraft at rest at the origin, and desired states at 1
    and at 3 in every component. *)
Definition uniform_state (x : float) : SpacecraftState :=
  mkState (np_array x x x) (np_array x x x) (np_array x x x) (np_array x x x).

(** The simulator of [used_simulator]: 100 s into a run, [dt = 0.1]. *)
Definition used_simulator : HILSimulator :=
  mkSim 0.1 100
        (mkState (np_array 2400 150 (-30)) (np_array (-1) 0 0)
                 (np_array 0.5 0 0) (np_array 0.01 0 0)).

(** Where three calls of [propagate_dynamics] leave the time and the first
    coordinate of [used_simulator], and where [time + 3 * dt] and
    [x + 3 * (vx * dt)] would be, as Python prints them. *)
Definition time_after_three_calls : float := 100.29999999999998.
Definition time_plus_three_dt : float := 100.3.
Definition x_after_three_calls : float := 2399.7000000000003.
Definition x_plus_three_steps : float := 2399.7.

Definition at_rest : SpacecraftState := uniform_state 0.
Definition desired_one : SpacecraftState := uniform_state 1.
Definition desired_three : SpacecraftState := uniform_state 3.
Definition three : float := 3.

(** The first component of the thrust towards 3, and 3 times that of the
    thrust towards 1, as Python prints them. *)
Definition thrust_towards_three : float := 0.33000000000000007.
Definition three_times_thrust_towards_one : float := 0.33.

End Binary64.

(** * Properties *)

(** ** The placeholder modules *)

(** C9: for an object of any of the five placeholder classes and any input,
    [calculate] returns its input unchanged, and [validate] returns [True]
    exactly when the input is not [None]. *)
Theorem placeholder_calculate_validate :
  forall (obj : placeholder) (x : pyvalue),
    call_calculate obj x = x /\
    (call_validate obj x = true <-> x <> PyNone).
Proof.
  intros obj x; split.
  - destruct obj; reflexivity.
  - destruct obj; cbn; destruct x; cbn; split; congruence.
Qed.

(** ** Arrays *)

Lemma vec3_eq (u v : Vec3) :
  vx u = vx v -> vy u = vy v -> vz u = vz v -> u = v.
Proof.
  destruct u, v; cbn; intros -> -> ->; reflexivity.
Qed.

Ltac vec_ring := apply vec3_eq; cbn; first [ring | lra].

(** ** Guidance *)

(** C5: [compute_guidance] returns the fixed target of the scenario, (20,0,0)
    km at rest for RDV, the origin with a descent of 0.0001 km/s for TAG, and
    an all-zero desired state for any other identifier; desired attitude and
    angular velocity are always zero and the estimated state plays no role. *)
Theorem compute_guidance_table :
  forall (est : SpacecraftState) (scenario : string),
    compute_guidance est "RDV"
      = mkState (np_array 20 0 0) (np_array 0 0 0) np_zeros3 np_zeros3 /\
    compute_guidance est "TAG"
      = mkState (np_array 0 0 0) (np_array 0 0 (-0.0001)) np_zeros3 np_zeros3 /\
    (scenario <> "RDV"%string -> scenario <> "TAG"%string ->
     compute_guidance est scenario
       = mkState np_zeros3 np_zeros3 np_zeros3 np_zeros3) /\
    attitude (compute_guidance est scenario) = np_zeros3 /\
    angular_velocity (compute_guidance est scenario) = np_zeros3 /\
    (forall est' : SpacecraftState,
       compute_guidance est' scenario = compute_guidance est scenario).
Proof.
  intros est scenario. unfold compute_guidance.
  repeat split.
  - intros Hrdv Htag.
    apply String.eqb_neq in Hrdv, Htag.
    rewrite Hrdv, Htag. reflexivity.
  - destruct (String.eqb scenario "RDV"), (String.eqb scenario "TAG");
      reflexivity.
  - destruct (String.eqb scenario "RDV"), (String.eqb scenario "TAG");
      reflexivity.
Qed.

Lemma compute_guidance_table_witness :
  compute_guidance initial_state "XYZ"
    = mkState np_zeros3 np_zeros3 np_zeros3 np_zeros3.
Proof.
  apply (compute_guidance_table initial_state "XYZ"); discriminate.
Defined.

(** ** Control *)

(** C6, as the code has it: thrust is
    0.01 * pos_error + 0.1 * vel_error and torque is
    0.1 * att_error + 0.05 * ang_vel_error, with the errors desired minus
    current, component by component; this holds of the real-number model and,
    operation by operation, of the binary64 computation. *)
Theorem compute_control_formula :
  (forall cur des : SpacecraftState,
     thrust (compute_control cur des)
       = 0.01 *v (position des -v position cur)
         +v 0.1 *v (velocity des -v velocity cur) /\
     torque (compute_control cur des)
       = 0.1 *v (attitude des -v attitude cur)
         +v 0.05 *v (angular_velocity des -v angular_velocity cur)) /\
  (forall cur des : Binary64.SpacecraftState,
     Binary64.thrust (Binary64.compute_control cur des)
       = Binary64.vadd
           (Binary64.smul Binary64.Kp_pos
              (Binary64.vsub (Binary64.position des) (Binary64.position cur)))
           (Binary64.smul Binary64.Kd_pos
              (Binary64.vsub (Binary64.velocity des) (Binary64.velocity cur))) /\
     Binary64.torque (Binary64.compute_control cur des)
       = Binary64.vadd
           (Binary64.smul Binary64.Kp_att
              (Binary64.vsub (Binary64.attitude des) (Binary64.attitude cur)))
           (Binary64.smul Binary64.Kd_att
              (Binary64.vsub (Binary64.angular_velocity des)
                             (Binary64.angular_velocity cur)))).
Proof.
  split.
  - intros cur des.
    unfold compute_control, Kp_pos, Kd_pos, Kp_att, Kd_att;
      cbn [thrust torque].
    split; reflexivity.
  - intros cur des. split; reflexivity.
Qed.

(** C6 as stated fails on binary64: from rest at the origin, a desired
    state at 3 in every component has position and velocity errors 3 times
    those of a desired state at 1, but its thrust, 0.33000000000000007, is
    not 3 times the thrust 0.11 of the latter, which is 0.33. *)
Lemma compute_control_not_linear_binary64 :
  Binary64.vsub (Binary64.position Binary64.desired_three)
                (Binary64.position Binary64.at_rest)
    = Binary64.smul Binary64.three
        (Binary64.vsub (Binary64.position Binary64.desired_one)
                       (Binary64.position Binary64.at_rest)) /\
  Binary64.vsub (Binary64.velocity Binary64.desired_three)
                (Binary64.velocity Binary64.at_rest)
    = Binary64.smul Binary64.three
        (Binary64.vsub (Binary64.velocity Binary64.desired_one)
                       (Binary64.velocity Binary64.at_rest)) /\
  Binary64.vx
    (Binary64.thrust
       (Binary64.compute_control Binary64.at_rest
                                 Binary64.desired_three))
    = Binary64.thrust_towards_three /\
  Binary64.vx
    (Binary64.smul Binary64.three
       (Binary64.thrust
          (Binary64.compute_control Binary64.at_rest
                                    Binary64.desired_one)))
    = Binary64.three_times_thrust_towards_one /\
  Binary64.thrust
    (Binary64.compute_control Binary64.at_rest
                              Binary64.desired_three)
    <> Binary64.smul Binary64.three
         (Binary64.thrust
            (Binary64.compute_control Binary64.at_rest
                                      Binary64.desired_one)).
Proof.
  split; [vm_compute; reflexivity |].
  split; [vm_compute; reflexivity |].
  split; [vm_compute; reflexivity |].
  split; [vm_compute; reflexivity |].
  intros H. apply (f_equal Binary64.vx) in H.
  apply (f_equal (fun x => PrimFloat.eqb x Binary64.three_times_thrust_towards_one)) in H.
  vm_compute in H. discriminate H.
Qed.

(** ** Reset *)

Lemma initialize_state_spec (w : World) :
  initialize_state w
    = Ok tt (mkWorld (set_state initial_state (self w)) (rng_pos w) (stdout w)).
Proof. reflexivity. Qed.

(** The loop performs no iteration when the time has already reached the
    duration. *)
Lemma main_loop_stop (gauss : nat -> R) (fuel : nat) (scenario : string)
    (duration : R) (iteration : nat) (w : World) :
  ~ time (self w) < duration ->
  main_loop gauss fuel scenario duration iteration w = Ok iteration w.
Proof.
  intros Hstop.
  destruct fuel; cbn [main_loop];
    destruct (Rlt_dec (time (self w)) duration); try contradiction;
    reflexivity.
Qed.

(** C1: [initialize_state], the reset that opens every scenario run, restores
    the four vectors of the state whatever the simulator held before, but it
    leaves [time] as it was: on a simulator already at 100 s a further run of
    100 s starts at time 100, performs no iteration and ends with an empty
    log. *)
Theorem initialize_state_keeps_time :
  (forall w : World,
     exists w' : World,
       initialize_state w = Ok tt w' /\
       position (state (self w')) = np_array 2500 200 (-50) /\
       velocity (state (self w')) = np_array 0.1 (-0.05) 0.02 /\
       attitude (state (self w')) = np_array 0 0 0 /\
       angular_velocity (state (self w')) = np_array 0 0 0 /\
       time (self w') = time (self w)) /\
  (forall (gauss : nat -> R) (fuel : nat),
     run_test_scenario gauss fuel "RDV" 100 used_simulator
       = Ok tt (mkWorld (mkSim 0.1 100 initial_state []) 0
                  [StartingTest "RDV"; DurationLine 100; UpdateRate (1 / 0.1);
                   Dashes; Dashes; TestComplete 0])).
Proof.
  split.
  - intros w. eexists. rewrite initialize_state_spec.
    repeat split.
  - intros gauss fuel.
    unfold run_test_scenario, bind, print, get_self, used_simulator; cbn.
    destruct (Req_dec_T 0.1 0) as [H | _]; [lra |].
    cbn.
    rewrite main_loop_stop by (cbn; lra).
    reflexivity.
Qed.

(** ** Sensors *)

(** The draws of one call, in the order the source takes them. *)
Lemma generate_sensor_measurements_spec (gauss : nat -> R) (w : World) :
  let p := rng_pos w in
  let st := state (self w) in
  generate_sensor_measurements gauss w
    = Ok (mkSensorData
            (1e-4 *v np_array (gauss p) (gauss (1 + p)%nat) (gauss (2 + p)%nat))
            (1e-6 *v np_array (gauss (3 + p)%nat) (gauss (4 + p)%nat)
                              (gauss (5 + p)%nat))
            (attitude st
             +v 1e-6 *v np_array (gauss (6 + p)%nat) (gauss (7 + p)%nat)
                                 (gauss (8 + p)%nat))
            (norm (position st) * 1000 + gauss (9 + p)%nat * 0.1)
            (position st
             +v 0.001 *v np_array (gauss (10 + p)%nat) (gauss (11 + p)%nat)
                                  (gauss (12 + p)%nat)))
         (mkWorld (self w) (13 + p) (stdout w)).
Proof. reflexivity. Qed.

(** C2, as the code has it: the star tracker, the range and the camera
    reading are the true attitude, 1000 times the norm of the true position
    and the true position, each plus a standard normal draw scaled by
    1e-6, 0.1 and 0.001; the two IMU readings are nothing but draws scaled
    by 1e-4 and 1e-6 and do not depend on the true state.  Without noise
    the first three are the true quantities and the IMU readings are zero. *)
Theorem generate_sensor_measurements_channels :
  forall (gauss : nat -> R) (w : World),
    let p := rng_pos w in
    let st := state (self w) in
    let draw3 (k : nat) :=
      np_array (gauss (k + p)%nat) (gauss (k + 1 + p)%nat)
               (gauss (k + 2 + p)%nat) in
    generate_sensor_measurements gauss w
      = Ok (mkSensorData (1e-4 *v draw3 0%nat)
                         (1e-6 *v draw3 3%nat)
                         (attitude st +v 1e-6 *v draw3 6%nat)
                         (norm (position st) * 1000 + gauss (9 + p)%nat * 0.1)
                         (position st +v 0.001 *v draw3 10%nat))
           (mkWorld (self w) (13 + p) (stdout w)) /\
    generate_sensor_measurements zero_noise w
      = Ok (mkSensorData np_zeros3 np_zeros3 (attitude st)
                         (norm (position st) * 1000) (position st))
           (mkWorld (self w) (13 + p) (stdout w)).
Proof.
  intros gauss w p st draw3. split.
  - apply generate_sensor_measurements_spec.
  - rewrite generate_sensor_measurements_spec. unfold zero_noise.
    fold st. f_equal. f_equal; try vec_ring. lra.
Qed.

(** C2 as stated fails on the gyroscope channel: with a true angular
    velocity of (1, 0, 0) rad/s and no noise, the gyroscope reads (0, 0, 0). *)
Lemma imu_gyro_ignores_angular_velocity :
  angular_velocity (state (self spinning_simulator)) = np_array 1 0 0 /\
  exists (sd : SensorData) (w' : World),
    generate_sensor_measurements zero_noise spinning_simulator = Ok sd w' /\
    imu_gyro sd = np_array 0 0 0 /\
    imu_gyro sd <> angular_velocity (state (self spinning_simulator)).
Proof.
  split; [reflexivity |].
  do 2 eexists. split; [apply generate_sensor_measurements_spec |].
  cbn. unfold zero_noise, np_array, vscale; cbn. split.
  - f_equal; lra.
  - intros H. apply (f_equal vx) in H. cbn in H. lra.
Qed.

(** ** Success criteria *)

Lemma check_success_criteria_RDV (w : World) :
  let d := norm (position (state (self w)) -v np_array 20 0 0) in
  check_success_criteria "RDV" w
    = if Rgt_dec d 10
      then Ok false (mkWorld (self w) (rng_pos w)
                             (stdout w ++ [WarnPositionError d]))
      else Ok true w.
Proof.
  cbn. unfold check_success_criteria, bind, get_self; cbn.
  destruct (Rgt_dec _ 10); reflexivity.
Qed.

(** C4: for scenario RDV the check returns [True], printing nothing, when
    the true position is at most 10 km from (20, 0, 0), the boundary
    included, and returns [False] after printing the warning when it is
    farther. *)
Theorem check_success_criteria_RDV_threshold :
  forall w : World,
    let d := norm (position (state (self w)) -v np_array 20 0 0) in
    (d <= 10 -> check_success_criteria "RDV" w = Ok true w) /\
    (d > 10 ->
     check_success_criteria "RDV" w
       = Ok false (mkWorld (self w) (rng_pos w)
                           (stdout w ++ [WarnPositionError d]))).
Proof.
  intros w d. pose proof (check_success_criteria_RDV w) as H.
  cbn zeta in H. fold d in H. rewrite H.
  split; intros Hd; destruct (Rgt_dec d 10); try reflexivity; lra.
Qed.

Lemma distance_on_axis (x : R) :
  20 <= x ->
  norm (position (state (self (simulator_at x))) -v np_array 20 0 0) = x - 20.
Proof.
  intros Hx. unfold norm; cbn.
  replace ((x - 20) * (x - 20) + (0 - 0) * (0 - 0) + (0 - 0) * (0 - 0))
    with ((x - 20) * (x - 20)) by ring.
  apply sqrt_square. lra.
Qed.

Lemma check_success_criteria_RDV_threshold_witness :
  check_success_criteria "RDV" (simulator_at 30) = Ok true (simulator_at 30) /\
  check_success_criteria "RDV" (simulator_at 30.0001)
    = Ok false
        (mkWorld (self (simulator_at 30.0001)) 0
                 [WarnPositionError
                    (norm (position (state (self (simulator_at 30.0001)))
                           -v np_array 20 0 0))]).
Proof.
  split.
  - apply (check_success_criteria_RDV_threshold (simulator_at 30)).
    rewrite distance_on_axis; lra.
  - apply (check_success_criteria_RDV_threshold (simulator_at 30.0001)).
    rewrite distance_on_axis; lra.
Defined.

(** ** Integration *)

Lemma propagate_dynamics_spec (w : World) :
  let s := self w in
  let st := state s in
  propagate_dynamics w
    = Ok tt
        (mkWorld
           (mkSim (dt s) (time s + dt s)
              (mkState (position st +v dt s *v velocity st)
                       (velocity st)
                       (vmap wrap_angle
                             (attitude st +v dt s *v angular_velocity st))
                       (angular_velocity st))
              (test_log s))
           (rng_pos w) (stdout w)).
Proof. reflexivity. Qed.

Lemma binary64_propagate_dynamics_times
    (np_sin np_cos : PrimFloat.float -> PrimFloat.float)
    (np_arctan2 : PrimFloat.float -> PrimFloat.float -> PrimFloat.float)
    (s : Binary64.HILSimulator) (n : nat) :
  let s_n :=
    Binary64.propagate_dynamics_times np_sin np_cos np_arctan2 n s in
  Binary64.dt s_n = Binary64.dt s /\
  Binary64.velocity (Binary64.state s_n)
    = Binary64.velocity (Binary64.state s) /\
  Binary64.time s_n
    = Nat.iter n (fun t => PrimFloat.add t (Binary64.dt s)) (Binary64.time s) /\
  Binary64.position (Binary64.state s_n)
    = Nat.iter n
        (fun p =>
           Binary64.vadd p
             (Binary64.vmul (Binary64.velocity (Binary64.state s))
                            (Binary64.dt s)))
        (Binary64.position (Binary64.state s)).
Proof.
  cbn zeta. unfold Binary64.propagate_dynamics_times.
  induction n as [| n (Hdt & Hvel & Htime & Hpos)].
  - repeat split.
  - rewrite !Nat.iter_succ.
    set (s_n := Nat.iter n
                  (Binary64.propagate_dynamics np_sin np_cos np_arctan2) s)
      in *.
    clearbody s_n.
    unfold Binary64.propagate_dynamics.
    cbn [Binary64.dt Binary64.time Binary64.state Binary64.position
         Binary64.velocity].
    rewrite Hdt, Hvel, Htime, Hpos.
    split; [reflexivity |]. split; [reflexivity |].
    split; reflexivity.
Qed.

(** C7, as the code has it: one call of [propagate_dynamics] replaces the
    time by the binary64 sum [time + dt] and the position by
    [position + velocity * dt], product and sum rounded component by
    component, and leaves the velocity and [dt] untouched; [n] calls in a
    row therefore apply the update [t |-> t + dt] to the time and
    [p |-> p + velocity * dt], with the velocity of the start, to the
    position [n] times over, whatever the attitude does. *)
Theorem propagate_dynamics_update :
  forall (np_sin np_cos : PrimFloat.float -> PrimFloat.float)
         (np_arctan2 : PrimFloat.float -> PrimFloat.float -> PrimFloat.float)
         (s : Binary64.HILSimulator) (n : nat),
    let s_1 := Binary64.propagate_dynamics np_sin np_cos np_arctan2 s in
    let s_n :=
      Binary64.propagate_dynamics_times np_sin np_cos np_arctan2 n s in
    let advance (p : Binary64.Vec3) :=
      Binary64.vadd p
        (Binary64.vmul (Binary64.velocity (Binary64.state s))
                       (Binary64.dt s)) in
    Binary64.time s_1 = PrimFloat.add (Binary64.time s) (Binary64.dt s) /\
    Binary64.position (Binary64.state s_1)
      = advance (Binary64.position (Binary64.state s)) /\
    Binary64.velocity (Binary64.state s_1)
      = Binary64.velocity (Binary64.state s) /\
    Binary64.time s_n
      = Nat.iter n (fun t => PrimFloat.add t (Binary64.dt s))
                 (Binary64.time s) /\
    Binary64.position (Binary64.state s_n)
      = Nat.iter n advance (Binary64.position (Binary64.state s)) /\
    Binary64.velocity (Binary64.state s_n)
      = Binary64.velocity (Binary64.state s) /\
    Binary64.dt s_n = Binary64.dt s.
Proof.
  intros np_sin np_cos np_arctan2 s n s_1 s_n advance.
  destruct (binary64_propagate_dynamics_times np_sin np_cos np_arctan2 s n)
    as (Hdt & Hvel & Htime & Hpos).
  fold s_n in Hdt, Hvel, Htime, Hpos.
  split; [reflexivity |]. split; [reflexivity |]. split; [reflexivity |].
  split; [exact Htime |]. split; [exact Hpos |].
  split; [exact Hvel | exact Hdt].
Qed.

(** C7 as stated fails on binary64.  On a simulator at 100 s with
    [dt = 0.1 > 0] and velocity (-1, 0, 0) km/s, one call advances the time
    by (100 + 0.1) - 100, which is not 0.1; three calls leave the time at
    100.29999999999998, not at 100 + 3 * 0.1 = 100.3, and the first
    coordinate at 2399.7000000000003, not at 2400 + 3 * (-1 * 0.1) =
    2399.7. *)
Lemma propagate_dynamics_rounds_binary64 :
  PrimFloat.ltb PrimFloat.zero (Binary64.dt Binary64.used_simulator) = true /\
  forall (np_sin np_cos : PrimFloat.float -> PrimFloat.float)
         (np_arctan2 : PrimFloat.float -> PrimFloat.float -> PrimFloat.float),
    let s := Binary64.used_simulator in
    let s_1 := Binary64.propagate_dynamics np_sin np_cos np_arctan2 s in
    let s_3 :=
      Binary64.propagate_dynamics_times np_sin np_cos np_arctan2 3 s in
    PrimFloat.sub (Binary64.time s_1) (Binary64.time s) <> Binary64.dt s /\
    Binary64.time s_3 = Binary64.time_after_three_calls /\
    PrimFloat.add (Binary64.time s)
                  (PrimFloat.mul Binary64.three (Binary64.dt s))
      = Binary64.time_plus_three_dt /\
    Binary64.time s_3
      <> PrimFloat.add (Binary64.time s)
                       (PrimFloat.mul Binary64.three (Binary64.dt s)) /\
    Binary64.vx (Binary64.position (Binary64.state s_3))
      = Binary64.x_after_three_calls /\
    PrimFloat.add (Binary64.vx (Binary64.position (Binary64.state s)))
                  (PrimFloat.mul Binary64.three
                     (PrimFloat.mul
                        (Binary64.vx (Binary64.velocity (Binary64.state s)))
                        (Binary64.dt s)))
      = Binary64.x_plus_three_steps /\
    Binary64.vx (Binary64.position (Binary64.state s_3))
      <> PrimFloat.add (Binary64.vx (Binary64.position (Binary64.state s)))
                       (PrimFloat.mul Binary64.three
                          (PrimFloat.mul
                             (Binary64.vx
                                (Binary64.velocity (Binary64.state s)))
                             (Binary64.dt s))).
Proof.
  split; [vm_compute; reflexivity |].
  intros np_sin np_cos np_arctan2 s s_1 s_3.
  split.
  { intros H.
    apply (f_equal (fun x => PrimFloat.eqb x (Binary64.dt s))) in H.
    vm_compute in H. discriminate H. }
  split; [vm_compute; reflexivity |].
  split; [vm_compute; reflexivity |].
  split.
  { intros H.
    apply (f_equal (fun x => PrimFloat.eqb x Binary64.time_plus_three_dt))
      in H.
    vm_compute in H. discriminate H. }
  split; [vm_compute; reflexivity |].
  split; [vm_compute; reflexivity |].
  intros H.
  apply (f_equal (fun x => PrimFloat.eqb x Binary64.x_plus_three_steps)) in H.
  vm_compute in H. discriminate H.
Qed.

(** ** Final statistics *)

Lemma last_item_snoc {A} (l : list A) (x : A) (w : World) :
  last_item (l ++ [x]) w = Ok x w.
Proof.
  unfold last_item. rewrite rev_app_distr. reflexivity.
Qed.

Lemma print_final_statistics_empty (w : World) :
  test_log (self w) = [] -> print_final_statistics w = Ok tt w.
Proof.
  intros H. unfold print_final_statistics, bind, get_self.
  rewrite H. reflexivity.
Qed.

(** C10: on an empty log [print_final_statistics] returns at once, printing
    nothing and raising nothing.  On a log with a last entry [e] it prints
    the full report and does not raise either: the means are numbers (sum
    over a positive length, not nan) and the maxima are taken over the
    non-empty lists of the logged errors. *)
Theorem print_final_statistics_guard :
  (forall w : World,
     test_log (self w) = [] -> print_final_statistics w = Ok tt w) /\
  (forall (w : World) (l : list LogEntry) (e : LogEntry),
     test_log (self w) = l ++ [e] ->
     let pos_errors := map position_error (l ++ [e]) in
     let vel_errors := map velocity_error (l ++ [e]) in
     exists max_pos max_vel : R,
       np_max pos_errors w = Ok max_pos w /\
       np_max vel_errors w = Ok max_vel w /\
       (0 < List.length pos_errors)%nat /\
       (0 < List.length vel_errors)%nat /\
       print_final_statistics w
         = Ok tt
             (mkWorld (self w) (rng_pos w)
                (stdout w ++
                 [FinalStateHeader;
                  FinalPosition (log_position e);
                  FinalVelocity (velocity (state (self w)));
                  FinalPositionError (position_error e);
                  FinalVelocityError (velocity_error e);
                  StatisticsHeader;
                  MeanPositionError
                    (Some (np_sum pos_errors / INR (List.length pos_errors)));
                  MaxPositionError max_pos;
                  MeanVelocityError
                    (Some (np_sum vel_errors / INR (List.length vel_errors)));
                  MaxVelocityError max_vel]))).
Proof.
  split; [exact print_final_statistics_empty |].
  intros w l e Hlog pos_errors vel_errors.
  assert (Hp : exists x xs, pos_errors = x :: xs).
  { subst pos_errors. destruct l; cbn; eauto. }
  assert (Hv : exists x xs, vel_errors = x :: xs).
  { subst vel_errors. destruct l; cbn; eauto. }
  destruct Hp as (xp & xsp & Hp), Hv as (xv & xsv & Hv).
  exists (fold_left Rmax xsp xp), (fold_left Rmax xsv xv).
  rewrite Hp, Hv. repeat split; try (cbn; lia).
  unfold print_final_statistics, bind at 1, get_self.
  rewrite Hlog. fold pos_errors vel_errors.
  replace (Nat.eqb (List.length (l ++ [e])) 0) with false
    by (rewrite length_app; cbn; symmetry; apply Nat.eqb_neq; lia).
  unfold bind at 1. rewrite last_item_snoc.
  rewrite Hp, Hv.
  unfold bind, print, np_max, np_mean, ret; cbn.
  repeat rewrite <- app_assoc. reflexivity.
Qed.

Lemma print_final_statistics_guard_witness :
  print_final_statistics used_simulator = Ok tt used_simulator.
Proof.
  apply (proj1 print_final_statistics_guard used_simulator).
  reflexivity.
Defined.

(** ** Attitude wrapping *)

Lemma arctan2_range (y x : R) : - PI < arctan2 y x <= PI.
Proof.
  pose proof PI_RGT_0 as Hpi.
  pose proof (atan_bound (y / x)) as [Hlo Hhi].
  unfold arctan2.
  destruct (total_order_T x 0) as [[Hx | Hx] | Hx].
  - destruct (Rle_dec 0 y) as [Hy | Hy].
    + assert (Hq : y / x <= 0).
      { unfold Rdiv. apply Rinv_lt_0_compat in Hx.
        rewrite <- (Rmult_0_l (/ x)).
        apply Rmult_le_compat_neg_l with (r := / x) in Hy; lra. }
      assert (Ha : atan (y / x) <= 0).
      { destruct Hq as [Hq | Hq].
        - apply atan_increasing in Hq. rewrite atan_0 in Hq. lra.
        - rewrite Hq, atan_0. lra. }
      lra.
    + assert (Hq : 0 < y / x).
      { unfold Rdiv. apply Rinv_lt_0_compat in Hx.
        replace (y * / x) with ((- y) * (- / x)) by ring.
        apply Rmult_lt_0_compat; lra. }
      apply atan_increasing in Hq. rewrite atan_0 in Hq. lra.
  - destruct (total_order_T y 0) as [[Hy | Hy] | Hy]; lra.
  - lra.
Qed.

Lemma wrap_angle_range (a : R) : - PI < wrap_angle a <= PI.
Proof. apply arctan2_range. Qed.

(** On the right half-plane the wrapped angle is the arctangent of the
    tangent. *)
Lemma wrap_angle_centre (a : R) :
  - (PI / 2) < a < PI / 2 -> wrap_angle a = a.
Proof.
  intros [Hlo Hhi].
  pose proof (cos_gt_0 a Hlo Hhi) as Hc.
  unfold wrap_angle, arctan2.
  destruct (total_order_T (cos a) 0) as [[Hx | Hx] | Hx]; try lra.
  fold (tan a). apply atan_tan. lra.
Qed.

Lemma wrap_angle_upper (a : R) :
  PI / 2 < a <= PI -> wrap_angle a = a.
Proof.
  intros [Hlo Hhi].
  pose proof PI_RGT_0 as Hpi.
  set (b := a - PI).
  assert (Hb : - (PI / 2) < b < PI / 2) by (unfold b; lra).
  pose proof (cos_gt_0 b (proj1 Hb) (proj2 Hb)) as Hcb.
  assert (Hs : sin a = - sin b).
  { replace a with (b + PI) by (unfold b; ring). apply neg_sin. }
  assert (Hc : cos a = - cos b).
  { replace a with (b + PI) by (unfold b; ring). apply neg_cos. }
  assert (Hsa : 0 <= sin a) by (apply sin_ge_0; lra).
  unfold wrap_angle, arctan2.
  destruct (total_order_T (cos a) 0) as [[Hx | Hx] | Hx]; try lra.
  destruct (Rle_dec 0 (sin a)) as [_ | Hn]; [| contradiction].
  replace (sin a / cos a) with (tan b)
    by (rewrite Hs, Hc; unfold tan; field; lra).
  rewrite atan_tan by lra. unfold b. ring.
Qed.

Lemma wrap_angle_lower (a : R) :
  - PI < a < - (PI / 2) -> wrap_angle a = a.
Proof.
  intros [Hlo Hhi].
  pose proof PI_RGT_0 as Hpi.
  set (b := a + PI).
  assert (Hb : 0 < b < PI / 2) by (unfold b; lra).
  assert (Hcb : 0 < cos b) by (apply cos_gt_0; lra).
  assert (Hsb : 0 < sin b) by (apply sin_gt_0; lra).
  assert (Hs : sin b = - sin a) by apply neg_sin.
  assert (Hc : cos b = - cos a) by apply neg_cos.
  unfold wrap_angle, arctan2.
  destruct (total_order_T (cos a) 0) as [[Hx | Hx] | Hx]; try lra.
  destruct (Rle_dec 0 (sin a)) as [Hn | _]; [lra |].
  replace (sin a / cos a) with (tan b)
    by (unfold tan; rewrite Hs, Hc; field; lra).
  rewrite atan_tan by lra. unfold b. ring.
Qed.

Lemma wrap_angle_quarter_turns :
  wrap_angle (PI / 2) = PI / 2 /\ wrap_angle (- (PI / 2)) = - (PI / 2).
Proof.
  unfold wrap_angle, arctan2.
  rewrite cos_neg, sin_neg, cos_PI2, sin_PI2.
  destruct (total_order_T 0 0) as [[Hx | Hx] | Hx]; try lra.
  destruct (total_order_T 1 0) as [[H1 | H1] | H1]; try lra.
  destruct (total_order_T (Ropp 1) 0) as [[H2 | H2] | H2]; lra.
Qed.

Lemma wrap_angle_fixes (a : R) : - PI < a <= PI -> wrap_angle a = a.
Proof.
  intros [Hlo Hhi].
  destruct (total_order_T a (PI / 2)) as [[H | H] | H].
  - destruct (total_order_T a (- (PI / 2))) as [[H' | H'] | H'].
    + apply wrap_angle_lower. lra.
    + rewrite H'. apply wrap_angle_quarter_turns.
    + apply wrap_angle_centre. lra.
  - rewrite H. apply wrap_angle_quarter_turns.
  - apply wrap_angle_upper. lra.
Qed.

(** ** The main loop *)

Lemma same_sim_refl (w : World) : same_sim w w.
Proof. split; reflexivity. Qed.

(** The check reads the simulator and may print; it writes nothing else and
    never raises. *)
Lemma check_success_criteria_observes (scenario : string) (w : World) :
  exists (b : bool) (out : list Line),
    check_success_criteria scenario w
      = Ok b (mkWorld (self w) (rng_pos w) (stdout w ++ out)).
Proof.
  unfold check_success_criteria, bind, get_self, print, ret.
  destruct w as [s p o]; cbn.
  destruct (String.eqb scenario "RDV").
  - destruct (Rgt_dec _ 10).
    + eexists _, [_]. reflexivity.
    + exists true, []. rewrite app_nil_r. reflexivity.
  - destruct (String.eqb scenario "TAG").
    + destruct (Rgt_dec _ 0.1); [destruct (Rgt_dec _ 50) |].
      * eexists _, [_]. reflexivity.
      * exists true, []. rewrite app_nil_r. reflexivity.
      * exists true, []. rewrite app_nil_r. reflexivity.
    + exists true, []. rewrite app_nil_r. reflexivity.
Qed.

(** Steps 1 to 7 never raise, print nothing, take thirteen draws, append
    one log entry and advance the time by [dt]; what they do to the
    simulator does not depend on what has been printed. *)
Ltac run_methods :=
  lazy beta iota zeta delta
    [after_steps sense_to_log generate_sensor_measurements estimate_state
     apply_actuator_commands propagate_dynamics through_aliases log_data
     randn3 randn bind ret get_self put_self
     set_time set_state set_test_log
     self rng_pos stdout dt time test_log].

Lemma sense_to_log_spec (gauss : nat -> R) (scenario : string)
    (s : HILSimulator) (p : nat) :
  exists s' : HILSimulator,
    (forall o : list Line,
       sense_to_log gauss scenario (mkWorld s p o)
         = Ok tt (mkWorld s' (13 + p) o)) /\
    dt s' = dt s /\
    time s' = time s + dt s /\
    List.length (test_log s') = S (List.length (test_log s)).
Proof.
  exists (after_steps gauss scenario s p).
  run_methods.
  split; [intros o; reflexivity |].
  split; [reflexivity |].
  split; [reflexivity |].
  rewrite length_app. cbn [List.length]. lia.
Qed.

(** Steps 1 to 7 in closed form. *)
Lemma sense_to_log_closed_form (gauss : nat -> R) (scenario : string)
    (w : World) :
  let s := self w in
  let p := rng_pos w in
  let st := state s in
  let camera :=
    position st
    +v 0.001 *v np_array (gauss (10 + p)%nat) (gauss (11 + p)%nat)
                         (gauss (12 + p)%nat) in
  let star :=
    attitude st
    +v 1e-6 *v np_array (gauss (6 + p)%nat) (gauss (7 + p)%nat)
                        (gauss (8 + p)%nat) in
  let est := mkState camera (velocity st) star (angular_velocity st) in
  let des := compute_guidance est scenario in
  let cmd := compute_control est des in
  let v' := velocity st +v dt s *v thrust cmd in
  let o' := angular_velocity st +v dt s *v torque cmd in
  let p' := position st +v dt s *v v' in
  let a' := vmap wrap_angle (attitude st +v dt s *v o') in
  let e :=
    mkLogEntry (time s + dt s) p' v'
               (norm (position des -v camera))
               (norm (velocity des -v v'))
               (norm (thrust cmd)) in
  sense_to_log gauss scenario w
    = Ok tt (mkWorld (mkSim (dt s) (time s + dt s) (mkState p' v' a' o')
                            (test_log s ++ [e]))
                     (13 + p) (stdout w)).
Proof.
  destruct w as [s p o]. run_methods. reflexivity.
Qed.

Lemma loop_body_spec (gauss : nat -> R) (scenario : string) (iteration : nat)
    (w : World) :
  exists (w1 w' : World),
    sense_to_log gauss scenario w = Ok tt w1 /\
    loop_body gauss scenario iteration w = Ok tt w' /\
    same_sim w' w1.
Proof.
  destruct w as [s p o].
  destruct (sense_to_log_spec gauss scenario s p) as (s' & Hrun & _).
  unfold loop_body, bind at 1. rewrite Hrun.
  destruct (Nat.eqb (iteration mod 10) 0).
  - destruct (check_success_criteria_observes scenario (mkWorld s' (13 + p) o))
      as (b & out & Hcheck).
    unfold bind. rewrite Hcheck. do 2 eexists.
    split; [reflexivity |]. split; [reflexivity |]. split; reflexivity.
  - do 2 eexists.
    split; [reflexivity |]. split; [reflexivity |]. split; reflexivity.
Qed.

Lemma sense_to_log_same_sim (gauss : nat -> R) (scenario : string)
    (w1 w2 : World) :
  same_sim w1 w2 ->
  exists (w1' w2' : World),
    sense_to_log gauss scenario w1 = Ok tt w1' /\
    sense_to_log gauss scenario w2 = Ok tt w2' /\
    same_sim w1' w2' /\
    dt (self w1') = dt (self w1) /\
    time (self w1') = time (self w1) + dt (self w1) /\
    List.length (test_log (self w1')) = S (List.length (test_log (self w1))).
Proof.
  destruct w1 as [s p o1], w2 as [s2 p2 o2].
  intros [Hs Hp]; cbn in Hs, Hp; subst s2 p2.
  destruct (sense_to_log_spec gauss scenario s p)
    as (s' & Hrun & Hdt & Ht & Hl).
  exists (mkWorld s' (13 + p) o1), (mkWorld s' (13 + p) o2).
  rewrite !Hrun. cbn [self rng_pos].
  split; [reflexivity |]. split; [reflexivity |].
  split; [split; reflexivity |].
  split; [exact Hdt |]. split; [exact Ht | exact Hl].
Qed.

Lemma bind_ok {A B} (m : M A) (k : A -> M B) (w w' : World) (a : A) :
  m w = Ok a w' -> (x <- m ;; k x) w = k a w'.
Proof. intros H. unfold bind. rewrite H. reflexivity. Qed.

(** While the time is below the duration the loop runs its body once more
    and goes on. *)
Lemma main_loop_step (gauss : nat -> R) (fuel : nat) (scenario : string)
    (duration : R) (iteration : nat) (w : World) :
  time (self w) < duration ->
  main_loop gauss (S fuel) scenario duration iteration w
    = (loop_body gauss scenario iteration ;;;
       main_loop gauss fuel scenario duration (S iteration)) w.
Proof.
  intros Hlt. cbn [main_loop].
  destruct (Rlt_dec (time (self w)) duration); [reflexivity | contradiction].
Qed.

(** Whatever the checks answered, a loop that returns has run steps 1 to 7
    as many times as it counted, and stopped on [time >= duration]. *)
Lemma main_loop_tracks (gauss : nat -> R) (scenario : string) (duration : R)
    (fuel : nat) :
  forall (iteration : nat) (w v : World),
    same_sim w v ->
    match main_loop gauss fuel scenario duration iteration w with
    | Ok n w' =>
        ~ time (self w') < duration /\
        (iteration <= n)%nat /\
        exists v' : World,
          repeat_call (n - iteration) (sense_to_log gauss scenario) v
            = Ok tt v' /\
          same_sim w' v'
    | Raised _ => False
    | OutOfFuel => True
    end.
Proof.
  induction fuel as [| fuel IH]; intros i w v Hsim.
  - cbn [main_loop].
    destruct (Rlt_dec (time (self w)) duration) as [Hlt | Hge]; [exact I |].
    split; [exact Hge |]. split; [lia |].
    exists v. rewrite Nat.sub_diag. split; [reflexivity | exact Hsim].
  - destruct (Rlt_dec (time (self w)) duration) as [Hlt | Hge].
    + rewrite main_loop_step by exact Hlt.
      destruct (loop_body_spec gauss scenario i w)
        as (w1 & w2 & Hsense & Hbody & Hsim1).
      destruct (sense_to_log_same_sim gauss scenario w v Hsim)
        as (w1' & v1 & Hw1 & Hv1 & Hsim2 & _).
      rewrite Hsense in Hw1. injection Hw1 as <-.
      assert (Hsim3 : same_sim w2 v1).
      { destruct Hsim1, Hsim2. split; congruence. }
      rewrite (bind_ok _ _ _ _ _ Hbody).
      pose proof (IH (S i) w2 v1 Hsim3) as Hrest.
      revert Hrest.
      destruct (main_loop gauss fuel scenario duration (S i) w2)
        as [n w' | e |]; intros Hrest; [| exact Hrest | exact I].
      destruct Hrest as (Hstop & Hle & v' & Hrep & Hsim').
      split; [exact Hstop |]. split; [lia |].
      exists v'. split; [| exact Hsim'].
      replace (n - i)%nat with (S (n - S i)) by lia.
      cbn [repeat_call]. rewrite (bind_ok _ _ _ _ _ Hv1). exact Hrep.
    + rewrite main_loop_stop by exact Hge.
      split; [exact Hge |]. split; [lia |].
      exists v. rewrite Nat.sub_diag. split; [reflexivity | exact Hsim].
Qed.

(** C8: the check of the success criteria is an observer, and the loop
    drops its result.  The check never raises and leaves the simulator
    (state, time, log) and the random source as they are, whatever it
    returns.  As long as the time is below the duration the loop performs
    the next iteration and goes on from the simulator that steps 1 to 7
    produced, whether the check was run or not and whether it answered
    [True] or [False].  The loop never raises, and when it returns it has
    stopped on [time >= duration], after exactly the iterations it counted,
    in the simulator that as many runs of steps 1 to 7 alone, without any
    check, produce. *)
Theorem check_never_halts_run :
  (forall (scenario : string) (w : World),
     exists (b : bool) (out : list Line),
       check_success_criteria scenario w
         = Ok b (mkWorld (self w) (rng_pos w) (stdout w ++ out))) /\
  (forall (gauss : nat -> R) (fuel : nat) (scenario : string) (duration : R)
          (iteration : nat) (w : World),
     time (self w) < duration ->
     exists (w1 : World) (b : bool) (out : list Line),
       sense_to_log gauss scenario w = Ok tt w1 /\
       check_success_criteria scenario w1
         = Ok b (mkWorld (self w1) (rng_pos w1) (stdout w1 ++ out)) /\
       main_loop gauss (S fuel) scenario duration iteration w
         = main_loop gauss fuel scenario duration (S iteration)
             (if Nat.eqb (iteration mod 10) 0
              then mkWorld (self w1) (rng_pos w1) (stdout w1 ++ out)
              else w1)) /\
  (forall (gauss : nat -> R) (fuel : nat) (scenario : string) (duration : R)
          (iteration : nat) (w : World),
     match main_loop gauss fuel scenario duration iteration w with
     | Ok n w' =>
         ~ time (self w') < duration /\
         (iteration <= n)%nat /\
         exists v' : World,
           repeat_call (n - iteration) (sense_to_log gauss scenario) w
             = Ok tt v' /\
           same_sim w' v'
     | Raised _ => False
     | OutOfFuel => True
     end).
Proof.
  split; [exact check_success_criteria_observes |].
  split.
  - intros gauss fuel scenario duration iteration w Hlt.
    destruct w as [s p o].
    destruct (sense_to_log_spec gauss scenario s p) as (s' & Hsense & _).
    specialize (Hsense o).
    destruct (check_success_criteria_observes scenario
                (mkWorld s' (13 + p) o)) as (b & out & Hcheck).
    exists (mkWorld s' (13 + p) o), b, out.
    split; [exact Hsense |]. split; [exact Hcheck |].
    rewrite main_loop_step by exact Hlt.
    assert (Hbody :
      loop_body gauss scenario iteration (mkWorld s p o)
        = Ok tt (if Nat.eqb (iteration mod 10) 0
                 then mkWorld (self (mkWorld s' (13 + p) o))
                              (rng_pos (mkWorld s' (13 + p) o))
                              (stdout (mkWorld s' (13 + p) o) ++ out)
                 else mkWorld s' (13 + p) o)).
    { unfold loop_body. rewrite (bind_ok _ _ _ _ _ Hsense).
      destruct (Nat.eqb (iteration mod 10) 0); [| reflexivity].
      rewrite (bind_ok _ _ _ _ _ Hcheck). reflexivity. }
    rewrite (bind_ok _ _ _ _ _ Hbody). reflexivity.
  - intros gauss fuel scenario duration iteration w.
    apply (main_loop_tracks gauss scenario duration fuel iteration w w
             (same_sim_refl w)).
Qed.

Lemma norm_ge_first (v : Vec3) : vx v <= norm v.
Proof.
  unfold norm. destruct (Rle_dec 0 (vx v)) as [Hx | Hx].
  - rewrite <- (sqrt_square (vx v)) at 1 by exact Hx.
    apply sqrt_le_1_alt. nra.
  - apply Rle_trans with 0; [lra | apply sqrt_pos].
Qed.

Lemma compute_guidance_RDV (est : SpacecraftState) :
  compute_guidance est "RDV"
    = mkState (np_array 20 0 0) (np_array 0 0 0) np_zeros3 np_zeros3.
Proof. reflexivity. Qed.

(** After the first iteration of a fresh simulator the spacecraft is still
    far from the rendezvous target. *)
Lemma first_step_far (w1 : World) :
  sense_to_log zero_noise "RDV" fresh_simulator = Ok tt w1 ->
  norm (position (state (self w1)) -v np_array 20 0 0) > 10.
Proof.
  rewrite sense_to_log_closed_form. cbn zeta.
  intros H. injection H as <-.
  cbn [self state position].
  eapply Rlt_le_trans; [| apply norm_ge_first].
  unfold Kp_pos, Kd_pos, zero_noise.
  cbn [vx vy vz vadd vsub vscale np_array].
  lra.
Qed.

Lemma check_never_halts_run_witness :
  time (self fresh_simulator) < 0.25 /\
  exists (w1 : World) (out : list Line),
    sense_to_log zero_noise "RDV" fresh_simulator = Ok tt w1 /\
    check_success_criteria "RDV" w1
      = Ok false (mkWorld (self w1) (rng_pos w1) (stdout w1 ++ out)) /\
    main_loop zero_noise 3 "RDV" 0.25 0 fresh_simulator
      = main_loop zero_noise 2 "RDV" 0.25 1
          (mkWorld (self w1) (rng_pos w1) (stdout w1 ++ out)).
Proof.
  assert (H : time (self fresh_simulator) < 0.25) by (cbn; lra).
  split; [exact H |].
  destruct (proj1 (proj2 check_never_halts_run) zero_noise 2%nat "RDV"%string
              0.25 0%nat fresh_simulator H)
    as (w1 & b & out & Hsense & Hcheck & Hloop).
  exists w1, out.
  split; [exact Hsense |].
  pose proof (first_step_far w1 Hsense) as Hfar.
  pose proof (check_success_criteria_RDV w1) as Hrdv. cbn zeta in Hrdv.
  pose proof Hcheck as Hcopy. rewrite Hrdv in Hcopy. revert Hcopy.
  destruct (Rgt_dec (norm (position (state (self w1)) -v np_array 20 0 0)) 10)
    as [_ | Hnot]; [| contradiction].
  intros Hcopy. injection Hcopy as Hb _. subst b.
  change (Nat.eqb (0 mod 10) 0) with true in Hloop. cbn iota in Hloop.
  split; [exact Hcheck | exact Hloop].
Defined.

(** * Further properties of the simulator *)

(** ** The success criteria of the other scenarios *)

(** X1: for scenario TAG the check fails, printing the descent warning, when
    the altitude (norm of the true position) exceeds 0.1 km and more than
    50 s have elapsed; when either condition is missing it succeeds and
    prints nothing. *)
Theorem check_success_criteria_TAG_rule :
  forall w : World,
    let altitude := norm (position (state (self w))) in
    (altitude > 0.1 -> time (self w) > 50 ->
     check_success_criteria "TAG" w
       = Ok false (mkWorld (self w) (rng_pos w)
                           (stdout w ++ [WarnDescentTooSlow altitude]))) /\
    (altitude <= 0.1 \/ time (self w) <= 50 ->
     check_success_criteria "TAG" w = Ok true w).
Proof.
  intros w altitude.
  unfold check_success_criteria, bind, get_self.
  change (String.eqb "TAG" "RDV") with false.
  change (String.eqb "TAG" "TAG") with true.
  cbn iota. fold altitude.
  split.
  - intros Ha Ht.
    destruct (Rgt_dec altitude 0.1); [| contradiction].
    destruct (Rgt_dec (time (self w)) 50); [| contradiction].
    reflexivity.
  - intros Hor.
    destruct (Rgt_dec altitude 0.1); [| reflexivity].
    destruct (Rgt_dec (time (self w)) 50); [| reflexivity].
    destruct Hor; lra.
Qed.

Lemma altitude_late_high :
  norm (position (state (self late_high_simulator))) = 5.
Proof.
  unfold norm, late_high_simulator; cbn [self state position vx vy vz np_array].
  replace (0 * 0 + 0 * 0 + 5 * 5) with (5 * 5) by ring.
  apply sqrt_square. lra.
Qed.

Lemma check_success_criteria_TAG_rule_witness :
  check_success_criteria "TAG" late_high_simulator
    = Ok false
        (mkWorld (self late_high_simulator) 0
           [WarnDescentTooSlow
              (norm (position (state (self late_high_simulator))))]).
Proof.
  apply (check_success_criteria_TAG_rule late_high_simulator).
  - rewrite altitude_late_high. lra.
  - cbn [late_high_simulator self time]. lra.
Defined.

(** X2: for a scenario that is neither RDV nor TAG the check always
    succeeds, prints nothing and changes nothing. *)
Theorem check_success_criteria_unknown :
  forall (scenario : string) (w : World),
    scenario <> "RDV"%string -> scenario <> "TAG"%string ->
    check_success_criteria scenario w = Ok true w.
Proof.
  intros scenario w Hrdv Htag.
  apply String.eqb_neq in Hrdv, Htag.
  unfold check_success_criteria, bind, get_self.
  rewrite Hrdv, Htag. reflexivity.
Qed.

Lemma check_success_criteria_unknown_witness :
  check_success_criteria "XYZ" late_high_simulator = Ok true late_high_simulator.
Proof.
  apply (check_success_criteria_unknown "XYZ" late_high_simulator);
    discriminate.
Defined.

(** ** Navigation *)

Lemma state_eq (a b : SpacecraftState) :
  position a = position b -> velocity a = velocity b ->
  attitude a = attitude b -> angular_velocity a = angular_velocity b ->
  a = b.
Proof.
  destruct a, b; cbn; intros -> -> -> ->; reflexivity.
Qed.



(** ** Actuation *)

Lemma apply_actuator_commands_spec (commands : Commands) (w : World) :
  let s := self w in
  let st := state s in
  apply_actuator_commands commands w
    = Ok tt
        (mkWorld
           (mkSim (dt s) (time s)
              (mkState (position st)
                       (velocity st +v dt s *v thrust commands)
                       (attitude st)
                       (angular_velocity st +v dt s *v torque commands))
              (test_log s))
           (rng_pos w) (stdout w)).
Proof. reflexivity. Qed.

(** X4: [apply_actuator_commands] adds [thrust * dt] to the velocity and
    [torque * dt] to the angular velocity and touches nothing else
    (position, attitude, time, log, output, random source); the zero
    command changes nothing at all. *)
Theorem apply_actuator_commands_frame :
  forall (c1 : Commands) (w : World),
    (exists w1 : World,
       apply_actuator_commands c1 w = Ok tt w1 /\
       velocity (state (self w1))
         = velocity (state (self w)) +v dt (self w) *v thrust c1 /\
       angular_velocity (state (self w1))
         = angular_velocity (state (self w)) +v dt (self w) *v torque c1 /\
       position (state (self w1)) = position (state (self w)) /\
       attitude (state (self w1)) = attitude (state (self w)) /\
       time (self w1) = time (self w) /\
       dt (self w1) = dt (self w) /\
       test_log (self w1) = test_log (self w) /\
       rng_pos w1 = rng_pos w /\
       stdout w1 = stdout w) /\
    apply_actuator_commands zero_commands w = Ok tt w.
Proof.
  intros c1 w. split.
  - eexists. split; [apply apply_actuator_commands_spec |].
    cbn. repeat split.
  - rewrite apply_actuator_commands_spec.
    destruct w as [[d t [ps v a o] l] r out].
    cbn [self rng_pos stdout dt time state test_log position velocity
         attitude angular_velocity zero_commands thrust torque].
    do 3 f_equal. apply state_eq;
      cbn [position velocity attitude angular_velocity];
      try reflexivity; unfold np_zeros3; vec_ring.
Qed.

(** ** The log *)

(** X5: [log_data] appends exactly one entry, stamped with the current time
    and the current true position and velocity, whose three scalars are not
    negative; every entry already in the log keeps its index and content,
    the sensor data passed to it is not recorded, and nothing else of the
    simulator changes. *)
Theorem log_data_appends :
  forall (est des : SpacecraftState) (commands : Commands)
         (sensor_data : SensorData) (w : World),
  exists e : LogEntry,
    log_data est des commands sensor_data w
      = Ok tt (mkWorld (set_test_log (test_log (self w) ++ [e]) (self w))
                       (rng_pos w) (stdout w)) /\
    log_time e = time (self w) /\
    log_position e = position (state (self w)) /\
    log_velocity e = velocity (state (self w)) /\
    entry_nonneg e /\
    (forall (k : nat) (e0 : LogEntry),
       nth_error (test_log (self w)) k = Some e0 ->
       nth_error (test_log (self w) ++ [e]) k = Some e0) /\
    (forall sensor_data' : SensorData,
       log_data est des commands sensor_data' w
         = log_data est des commands sensor_data w).
Proof.
  intros est des commands sensor_data w.
  exists (mkLogEntry (time (self w))
                     (position (state (self w)))
                     (velocity (state (self w)))
                     (norm (position des -v position est))
                     (norm (velocity des -v velocity est))
                     (norm (thrust commands))).
  split; [reflexivity |].
  cbn [log_time log_position log_velocity].
  split; [reflexivity |]. split; [reflexivity |]. split; [reflexivity |].
  split; [| split].
  - unfold entry_nonneg, norm;
      cbn [position_error velocity_error thrust_magnitude].
    repeat split; apply sqrt_pos.
  - intros k e0 Hk. rewrite nth_error_app1; [exact Hk |].
    apply nth_error_Some. congruence.
  - intros sensor_data'. reflexivity.
Qed.

(** ** One iteration of the loop *)

(** X6: one iteration (steps 1 to 7) first updates the two velocities with
    the PD command, computed from the camera position, the star tracker
    attitude and the true velocities against the target of the scenario,
    and only then advances position and attitude, with the velocities
    already updated; it adds [dt] to the time, takes 13 draws and prints
    nothing. *)
Theorem sense_to_log_step :
  forall (gauss : nat -> R) (scenario : string) (w : World),
    let s := self w in
    let p := rng_pos w in
    let st := state s in
    let camera :=
      position st
      +v 0.001 *v np_array (gauss (10 + p)%nat) (gauss (11 + p)%nat)
                           (gauss (12 + p)%nat) in
    let star :=
      attitude st
      +v 1e-6 *v np_array (gauss (6 + p)%nat) (gauss (7 + p)%nat)
                          (gauss (8 + p)%nat) in
    let target := compute_guidance st scenario in
    exists w' : World,
      sense_to_log gauss scenario w = Ok tt w' /\
      velocity (state (self w'))
        = velocity st
          +v dt s *v (0.01 *v (position target -v camera)
                      +v 0.1 *v (velocity target -v velocity st)) /\
      angular_velocity (state (self w'))
        = angular_velocity st
          +v dt s *v (0.1 *v (np_zeros3 -v star)
                      +v 0.05 *v (np_zeros3 -v angular_velocity st)) /\
      position (state (self w'))
        = position st +v dt s *v velocity (state (self w')) /\
      attitude (state (self w'))
        = vmap wrap_angle
            (attitude st +v dt s *v angular_velocity (state (self w'))) /\
      time (self w') = time s + dt s /\
      dt (self w') = dt s /\
      rng_pos w' = (13 + p)%nat /\
      stdout w' = stdout w.
Proof.
  intros gauss scenario w s p st camera star target.
  eexists. split; [apply sense_to_log_closed_form |].
  cbn [self state dt time rng_pos stdout position velocity attitude
       angular_velocity].
  fold s p st camera star.
  split; [reflexivity |].
  split.
  - unfold compute_control, compute_guidance, Kp_att, Kd_att.
    destruct (String.eqb scenario "RDV"), (String.eqb scenario "TAG");
      reflexivity.
  - repeat (split; [reflexivity |]). reflexivity.
Qed.

(** X7: the entry an iteration appends carries the time, true position and
    true velocity reached at the end of the step.  Its position error is
    measured against the camera reading taken before the step, while its
    velocity error is measured against the velocity after actuation (the
    estimated state shares the velocity array of the true state), not
    against the velocity the control law used. *)
Theorem sense_to_log_entry :
  forall (gauss : nat -> R) (scenario : string) (w : World),
    let p := rng_pos w in
    let st := state (self w) in
    let camera :=
      position st
      +v 0.001 *v np_array (gauss (10 + p)%nat) (gauss (11 + p)%nat)
                           (gauss (12 + p)%nat) in
    let target := compute_guidance st scenario in
    exists (w' : World) (e : LogEntry),
      sense_to_log gauss scenario w = Ok tt w' /\
      test_log (self w') = test_log (self w) ++ [e] /\
      log_time e = time (self w') /\
      log_position e = position (state (self w')) /\
      log_velocity e = velocity (state (self w')) /\
      position_error e = norm (position target -v camera) /\
      velocity_error e
        = norm (velocity target -v velocity (state (self w'))) /\
      thrust_magnitude e
        = norm (0.01 *v (position target -v camera)
                +v 0.1 *v (velocity target -v velocity st)).
Proof.
  intros gauss scenario w p st camera target.
  do 2 eexists. split; [apply sense_to_log_closed_form |].
  cbn [self state dt time test_log position velocity log_time log_position
       log_velocity position_error velocity_error thrust_magnitude].
  repeat (split; [reflexivity |]). reflexivity.
Qed.

(** ** The attitude invariant *)

Lemma vmap_wrap_angle_wrapped (p v a o : Vec3) :
  attitude_wrapped (mkState p v (vmap wrap_angle a) o).
Proof.
  unfold attitude_wrapped, in_half_turn; cbn [attitude vmap vx vy vz].
  repeat split; apply wrap_angle_range.
Qed.

Lemma sense_to_log_wrapped (gauss : nat -> R) (scenario : string)
    (w w' : World) :
  sense_to_log gauss scenario w = Ok tt w' ->
  attitude_wrapped (state (self w')).
Proof.
  rewrite sense_to_log_closed_form. cbn zeta.
  intros H. injection H as <-.
  cbn [self state]. apply vmap_wrap_angle_wrapped.
Qed.

Lemma loop_body_wrapped (gauss : nat -> R) (scenario : string)
    (iteration : nat) (w w' : World) :
  loop_body gauss scenario iteration w = Ok tt w' ->
  attitude_wrapped (state (self w')).
Proof.
  destruct (loop_body_spec gauss scenario iteration w)
    as (w1 & w2 & Hsense & Hbody & Hsim).
  rewrite Hbody. intros H. injection H as <-.
  destruct Hsim as [-> _].
  apply (sense_to_log_wrapped gauss scenario w w1 Hsense).
Qed.

(** X8: after [propagate_dynamics], and after every iteration of the loop,
    whichever scenario and whether or not the check ran, each attitude angle
    lies in (-pi, pi], whatever the attitude and angular velocity were
    before. *)
Theorem attitude_wrapped_after_step :
  (forall w : World,
     exists w' : World,
       propagate_dynamics w = Ok tt w' /\
       attitude_wrapped (state (self w'))) /\
  (forall (gauss : nat -> R) (scenario : string) (iteration : nat)
          (w : World),
     exists w' : World,
       loop_body gauss scenario iteration w = Ok tt w' /\
       attitude_wrapped (state (self w'))).
Proof.
  split.
  - intros w. eexists. split; [apply propagate_dynamics_spec |].
    cbn [self state]. apply vmap_wrap_angle_wrapped.
  - intros gauss scenario iteration w.
    destruct (loop_body_spec gauss scenario iteration w)
      as (w1 & w' & _ & Hbody & _).
    exists w'. split; [exact Hbody |].
    apply (loop_body_wrapped gauss scenario iteration w w' Hbody).
Qed.

(** ** Whole runs *)

(** X10: on a simulator built with [dt = 0], [run_test_scenario] raises
    [ZeroDivisionError] (the update rate [1 / dt] of the banner) for every
    scenario and duration, before any iteration. *)
Theorem run_test_scenario_zero_dt :
  forall (gauss : nat -> R) (fuel : nat) (scenario : string) (duration : R)
         (w : World),
    dt (self w) = 0 ->
    run_test_scenario gauss fuel scenario duration w = Raised ZeroDivisionError.
Proof.
  intros gauss fuel scenario duration w Hdt.
  unfold run_test_scenario, bind, print, get_self; cbn [self].
  destruct (Req_dec_T (dt (self w)) 0) as [_ | Hne]; [| contradiction].
  reflexivity.
Qed.

Lemma run_test_scenario_zero_dt_witness :
  run_test_scenario zero_noise 5 "RDV" 100 stalled_simulator
    = Raised ZeroDivisionError.
Proof.
  apply (run_test_scenario_zero_dt zero_noise 5 "RDV" 100 stalled_simulator).
  reflexivity.
Defined.

(** The final report never raises and only prints. *)
Lemma print_final_statistics_prints (w : World) :
  exists out : list Line,
    print_final_statistics w
      = Ok tt (mkWorld (self w) (rng_pos w) (stdout w ++ out)).
Proof.
  destruct (test_log (self w)) as [| e0 l0] eqn:Hlog.
  - exists []. rewrite app_nil_r, print_final_statistics_empty by assumption.
    destruct w; reflexivity.
  - destruct (exists_last (l := e0 :: l0)) as (l & e & Hsnoc);
      [discriminate |].
    rewrite Hsnoc in Hlog.
    unfold print_final_statistics, bind at 1, get_self.
    rewrite Hlog.
    replace (Nat.eqb (List.length (l ++ [e])) 0) with false
      by (rewrite length_app; cbn; symmetry; apply Nat.eqb_neq; lia).
    unfold bind at 1. rewrite last_item_snoc.
    destruct (map position_error (l ++ [e])) as [| xp xsp] eqn:Hp;
      [destruct l; discriminate |].
    destruct (map velocity_error (l ++ [e])) as [| xv xsv] eqn:Hv;
      [destruct l; discriminate |].
    unfold bind, print, np_max, np_mean, ret;
      cbn [self rng_pos stdout].
    eexists. repeat rewrite <- app_assoc. reflexivity.
Qed.

(** A property of the world that every iteration keeps holds when the loop
    returns; the loop itself never raises. *)
Lemma main_loop_invariant (gauss : nat -> R) (scenario : string)
    (duration : R) (P : World -> Prop) :
  (forall (i : nat) (w w' : World),
     P w -> loop_body gauss scenario i w = Ok tt w' -> P w') ->
  forall (fuel i : nat) (w : World),
    P w ->
    match main_loop gauss fuel scenario duration i w with
    | Ok _ w' => P w'
    | Raised _ => False
    | OutOfFuel => True
    end.
Proof.
  intros Hstep. induction fuel as [| fuel IH]; intros i w HP;
    cbn [main_loop];
    destruct (Rlt_dec (time (self w)) duration) as [Hlt | Hge].
  - exact I.
  - exact HP.
  - destruct (loop_body_spec gauss scenario i w)
      as (w1 & w' & _ & Hbody & _).
    unfold bind. rewrite Hbody.
    apply IH. apply (Hstep i w w' HP Hbody).
  - exact HP.
Qed.

Lemma bind_print {A} (l : Line) (k : M A) (w : World) :
  (print l ;;; k) w = k (mkWorld (self w) (rng_pos w) (stdout w ++ [l])).
Proof. reflexivity. Qed.

Lemma bind_get_self {A} (k : HILSimulator -> M A) (w : World) :
  (s <- get_self ;; k s) w = k (self w) w.
Proof. reflexivity. Qed.

Lemma bind_put_self {A} (s : HILSimulator) (k : M A) (w : World) :
  (put_self s ;;; k) w = k (mkWorld s (rng_pos w) (stdout w)).
Proof. reflexivity. Qed.

Lemma bind_assoc {A B C} (m : M A) (f : A -> M B) (k : M C) (w : World) :
  ((x <- m ;; f x) ;;; k) w = (x <- m ;; (f x ;;; k)) w.
Proof. unfold bind. destruct (m w); reflexivity. Qed.

(** With a non-zero step, a run is its banner and reset, the loop, and the
    closing lines followed by the final report. *)
Lemma run_test_scenario_unfold (gauss : nat -> R) (fuel : nat)
    (scenario : string) (duration : R) (w : World) :
  dt (self w) <> 0 ->
  run_test_scenario gauss fuel scenario duration w
    = match main_loop gauss fuel scenario duration 0
              (loop_entry scenario duration w) with
      | Ok n w1 =>
          print_final_statistics
            (mkWorld (self w1) (rng_pos w1)
                     (stdout w1 ++ [Dashes; TestComplete n]))
      | Raised e => Raised e
      | OutOfFuel => OutOfFuel
      end.
Proof.
  intros Hdt.
  unfold run_test_scenario.
  rewrite !bind_print, bind_get_self. cbn [self].
  destruct (Req_dec_T (dt (self w)) 0) as [H0 | _]; [contradiction |].
  rewrite !bind_print. unfold initialize_state.
  rewrite bind_assoc, bind_get_self, bind_put_self.
  rewrite bind_assoc, bind_get_self, bind_put_self.
  cbn [self rng_pos stdout set_state set_test_log dt time state test_log].
  repeat rewrite <- app_assoc. cbn [app].
  unfold bind at 1. fold (loop_entry scenario duration w).
  destruct (main_loop gauss fuel scenario duration 0 _) as [n w1 | e |];
    try reflexivity.
  rewrite !bind_print. cbn [self rng_pos stdout].
  repeat rewrite <- app_assoc. reflexivity.
Qed.

Lemma loop_body_after_sense (gauss : nat -> R) (scenario : string)
    (iteration : nat) (w w' : World) :
  loop_body gauss scenario iteration w = Ok tt w' ->
  exists w1 : World,
    sense_to_log gauss scenario w = Ok tt w1 /\ self w' = self w1.
Proof.
  destruct (loop_body_spec gauss scenario iteration w)
    as (w1 & w2 & Hsense & Hbody & Hsim).
  rewrite Hbody. intros H. injection H as <-.
  exists w1. split; [exact Hsense | apply Hsim].
Qed.

Lemma norm_nonneg (v : Vec3) : 0 <= norm v.
Proof. apply sqrt_pos. Qed.

Lemma sense_to_log_keeps (gauss : nat -> R) (scenario : string)
    (d : R) (w w1 : World) :
  run_invariant d w ->
  sense_to_log gauss scenario w = Ok tt w1 ->
  run_invariant d w1.
Proof.
  intros (Hdt & _ & Hnn).
  rewrite sense_to_log_closed_form. cbn zeta.
  intros H. injection H as <-.
  unfold run_invariant. cbn [self dt time state test_log].
  split; [exact Hdt |].
  split; [apply vmap_wrap_angle_wrapped |].
  apply Forall_app. split; [exact Hnn |].
  constructor; [| constructor].
  unfold entry_nonneg;
    cbn [position_error velocity_error thrust_magnitude].
  split; [| split]; apply norm_nonneg.
Qed.

Lemma loop_body_keeps (gauss : nat -> R) (scenario : string) (d : R)
    (i : nat) (w w' : World) :
  run_invariant d w ->
  loop_body gauss scenario i w = Ok tt w' ->
  run_invariant d w'.
Proof.
  intros Hinv Hbody.
  destruct (loop_body_after_sense gauss scenario i w w' Hbody)
    as (w1 & Hsense & Hself).
  pose proof (sense_to_log_keeps gauss scenario d w w1 Hinv Hsense) as H1.
  unfold run_invariant in *. rewrite Hself. exact H1.
Qed.

Lemma loop_entry_invariant (scenario : string) (duration : R) (w : World) :
  run_invariant (dt (self w)) (loop_entry scenario duration w).
Proof.
  unfold run_invariant, loop_entry; cbn [self dt time state test_log].
  split; [reflexivity |].
  split; [| constructor].
  pose proof PI_RGT_0.
  unfold attitude_wrapped, in_half_turn, initial_state;
    cbn [attitude np_array vx vy vz]. lra.
Qed.

(** A loop that returns has appended one log entry per iteration it
    counted, and stopped on [time >= duration]. *)
Lemma main_loop_counts (gauss : nat -> R) (scenario : string) (duration : R)
    (fuel : nat) :
  forall (iteration : nat) (w : World),
    match main_loop gauss fuel scenario duration iteration w with
    | Ok n w' =>
        ~ time (self w') < duration /\
        (List.length (test_log (self w')) + iteration
         = List.length (test_log (self w)) + n)%nat
    | Raised _ => False
    | OutOfFuel => True
    end.
Proof.
  induction fuel as [| fuel IH]; intros i w.
  - cbn [main_loop].
    destruct (Rlt_dec (time (self w)) duration) as [Hlt | Hge]; [exact I |].
    split; [exact Hge | lia].
  - destruct (Rlt_dec (time (self w)) duration) as [Hlt | Hge].
    + rewrite main_loop_step by exact Hlt.
      destruct (loop_body_spec gauss scenario i w)
        as (w1 & w2 & Hsense & Hbody & Hsim1).
      destruct (sense_to_log_same_sim gauss scenario w w (same_sim_refl w))
        as (w1' & _ & Hw1 & _ & _ & _ & _ & Hlen).
      rewrite Hsense in Hw1. injection Hw1 as <-.
      assert (Hself : self w2 = self w1) by apply Hsim1.
      rewrite (bind_ok _ _ _ _ _ Hbody).
      pose proof (IH (S i) w2) as Hrest. revert Hrest.
      destruct (main_loop gauss fuel scenario duration (S i) w2)
        as [n w' | e |]; intros Hrest; [| exact Hrest | exact I].
      destruct Hrest as (Hstop & Hcount).
      rewrite Hself, Hlen in Hcount.
      split; [exact Hstop | lia].
    + rewrite main_loop_stop by exact Hge.
      split; [exact Hge | lia].
Qed.

(** X11: whenever a run returns, whatever state and log the simulator held
    before, its log holds exactly as many entries as the iteration count it
    printed in its closing line (the earlier log is discarded), the time is
    not below the duration any more, and [dt] is unchanged. *)
Theorem run_test_scenario_log_count :
  forall (gauss : nat -> R) (fuel : nat) (scenario : string) (duration : R)
         (w : World),
    match run_test_scenario gauss fuel scenario duration w with
    | Ok _ w' =>
        In (TestComplete (List.length (test_log (self w')))) (stdout w') /\
        ~ time (self w') < duration /\
        dt (self w') = dt (self w)
    | Raised _ => True
    | OutOfFuel => True
    end.
Proof.
  intros gauss fuel scenario duration w.
  destruct (Req_dec_T (dt (self w)) 0) as [H0 | Hne].
  - unfold run_test_scenario.
    rewrite !bind_print, bind_get_self. cbn [self].
    destruct (Req_dec_T (dt (self w)) 0) as [_ | Hne]; [| contradiction].
    exact I.
  - rewrite run_test_scenario_unfold by exact Hne.
    pose proof (main_loop_invariant gauss scenario duration
                  (run_invariant (dt (self w)))
                  (loop_body_keeps gauss scenario (dt (self w)))
                  fuel 0 (loop_entry scenario duration w)
                  (loop_entry_invariant scenario duration w)) as Hinv.
    pose proof (main_loop_counts gauss scenario duration fuel 0
                  (loop_entry scenario duration w)) as Hcount.
    revert Hinv Hcount.
    destruct (main_loop gauss fuel scenario duration 0 _) as [n w1 | e |];
      intros Hinv Hcount; [| exact I | exact I].
    destruct (print_final_statistics_prints
                (mkWorld (self w1) (rng_pos w1)
                         (stdout w1 ++ [Dashes; TestComplete n])))
      as (out & Hreport).
    rewrite Hreport. cbn [self stdout].
    destruct Hinv as (Hdt & _).
    destruct Hcount as (Hstop & Hlen).
    cbn [loop_entry self test_log List.length Nat.add] in Hlen.
    rewrite Nat.add_0_r in Hlen. rewrite Hlen.
    split; [| split; [exact Hstop | exact Hdt]].
    apply in_or_app. left. apply in_or_app. right. right. left. reflexivity.
Qed.

(** X12: whatever a run returns, it raises nothing but [ZeroDivisionError],
    and that only for [dt = 0]; when it returns, every attitude angle lies
    in (-pi, pi] and every logged position error, velocity error and thrust
    magnitude is non-negative. *)
Theorem run_test_scenario_invariants :
  forall (gauss : nat -> R) (fuel : nat) (scenario : string) (duration : R)
         (w : World),
    match run_test_scenario gauss fuel scenario duration w with
    | Ok _ w' =>
        attitude_wrapped (state (self w')) /\
        Forall entry_nonneg (test_log (self w'))
    | Raised e => e = ZeroDivisionError /\ dt (self w) = 0
    | OutOfFuel => True
    end.
Proof.
  intros gauss fuel scenario duration w.
  destruct (Req_dec_T (dt (self w)) 0) as [H0 | Hne].
  - unfold run_test_scenario.
    rewrite !bind_print, bind_get_self. cbn [self].
    destruct (Req_dec_T (dt (self w)) 0) as [_ | Hne]; [| contradiction].
    split; [reflexivity | exact H0].
  - rewrite run_test_scenario_unfold by exact Hne.
    pose proof (main_loop_invariant gauss scenario duration
                  (run_invariant (dt (self w)))
                  (loop_body_keeps gauss scenario (dt (self w)))
                  fuel 0 (loop_entry scenario duration w)
                  (loop_entry_invariant scenario duration w)) as Hinv.
    destruct (main_loop gauss fuel scenario duration 0 _) as [n w1 | e |].
    + destruct (print_final_statistics_prints
                  (mkWorld (self w1) (rng_pos w1)
                           (stdout w1 ++ [Dashes; TestComplete n])))
        as (out & Hreport).
      rewrite Hreport. cbn [self].
      destruct Hinv as (_ & Hatt & Hnn).
      split; [exact Hatt | exact Hnn].
    + contradiction.
    + exact I.
Qed.

Lemma main_loop_agree (gauss : nat -> R) (scenario : string) (duration : R)
    (fuel : nat) :
  forall (i : nat) (w v : World),
    same_sim w v ->
    agree (main_loop gauss fuel scenario duration i w)
          (main_loop gauss fuel scenario duration i v).
Proof.
  induction fuel as [| fuel IH]; intros i w v Hsim;
    cbn [main_loop];
    (replace (time (self v)) with (time (self w))
       by (destruct Hsim as [-> _]; reflexivity));
    destruct (Rlt_dec (time (self w)) duration) as [Hlt | Hge].
  - exact I.
  - split; [reflexivity | exact Hsim].
  - destruct (loop_body_spec gauss scenario i w)
      as (w1 & w' & Hsw & Hbw & Hsimw).
    destruct (loop_body_spec gauss scenario i v)
      as (v1 & v' & Hsv & Hbv & Hsimv).
    destruct (sense_to_log_same_sim gauss scenario w v Hsim)
      as (w1' & v1' & Hsw' & Hsv' & Hsim1 & _).
    rewrite Hsw in Hsw'. injection Hsw' as <-.
    rewrite Hsv in Hsv'. injection Hsv' as <-.
    unfold bind. rewrite Hbw, Hbv.
    apply IH.
    destruct Hsimw, Hsimv, Hsim1. split; congruence.
  - split; [reflexivity | exact Hsim].
Qed.

(** X13: a run depends on the simulator it is called on only through [dt]
    and [time] (and on the random source): two simulators that agree on
    these, whatever their states, logs and earlier output, end their runs
    in the same way, with the same final state, time and log, or with the
    same exception. *)
Theorem run_test_scenario_forgets_state :
  forall (gauss : nat -> R) (fuel : nat) (scenario : string) (duration : R)
         (w v : World),
    dt (self w) = dt (self v) ->
    time (self w) = time (self v) ->
    rng_pos w = rng_pos v ->
    agree (run_test_scenario gauss fuel scenario duration w)
          (run_test_scenario gauss fuel scenario duration v).
Proof.
  intros gauss fuel scenario duration w v Hdt Htime Hrng.
  destruct (Req_dec_T (dt (self w)) 0) as [H0 | Hne].
  - unfold run_test_scenario.
    rewrite !bind_print, !bind_get_self. cbn [self].
    rewrite <- Hdt.
    destruct (Req_dec_T (dt (self w)) 0) as [_ | Hne]; [| contradiction].
    reflexivity.
  - rewrite !run_test_scenario_unfold by congruence.
    assert (Hentry : same_sim (loop_entry scenario duration w)
                              (loop_entry scenario duration v)).
    { unfold same_sim, loop_entry; cbn [self rng_pos].
      rewrite Hdt, Htime, Hrng. split; reflexivity. }
    pose proof (main_loop_agree gauss scenario duration fuel 0
                  (loop_entry scenario duration w)
                  (loop_entry scenario duration v) Hentry) as Hloop.
    destruct (main_loop gauss fuel scenario duration 0
                (loop_entry scenario duration w)) as [n w1 | e |];
      destruct (main_loop gauss fuel scenario duration 0
                  (loop_entry scenario duration v)) as [m v1 | e' |];
      try contradiction; try exact Hloop.
    destruct Hloop as (_ & Hs & Hr).
    destruct (print_final_statistics_prints
                (mkWorld (self w1) (rng_pos w1)
                         (stdout w1 ++ [Dashes; TestComplete n])))
      as (out & ->).
    destruct (print_final_statistics_prints
                (mkWorld (self v1) (rng_pos v1)
                         (stdout v1 ++ [Dashes; TestComplete m])))
      as (out' & ->).
    split; [reflexivity |]. split; [exact Hs | exact Hr].
Qed.

Lemma run_test_scenario_forgets_state_witness :
  agree (run_test_scenario zero_noise 7 "RDV" 100.25 used_simulator)
        (run_test_scenario zero_noise 7 "RDV" 100.25 other_used_simulator).
Proof.
  apply (run_test_scenario_forgets_state zero_noise 7 "RDV" 100.25
           used_simulator other_used_simulator);
    reflexivity.
Defined.

Lemma loop_body_silent (gauss : nat -> R) (scenario : string) (i : nat)
    (w w' : World) :
  scenario <> "RDV"%string -> scenario <> "TAG"%string ->
  loop_body gauss scenario i w = Ok tt w' ->
  stdout w' = stdout w.
Proof.
  intros Hrdv Htag.
  apply String.eqb_neq in Hrdv, Htag.
  unfold loop_body, bind at 1.
  rewrite sense_to_log_closed_form. cbn zeta.
  destruct (Nat.eqb (i mod 10) 0).
  - unfold bind, check_success_criteria, get_self. rewrite Hrdv, Htag.
    unfold ret. intros H. injection H as <-. reflexivity.
  - unfold ret. intros H. injection H as <-. reflexivity.
Qed.

(** X14: for a scenario that is neither RDV nor TAG the loop never prints
    anything (no warning can appear) and never raises, for every duration
    and number of iterations. *)
Theorem main_loop_silent_for_unknown :
  forall (gauss : nat -> R) (fuel : nat) (scenario : string) (duration : R)
         (iteration : nat) (w : World),
    scenario <> "RDV"%string -> scenario <> "TAG"%string ->
    match main_loop gauss fuel scenario duration iteration w with
    | Ok _ w' => stdout w' = stdout w
    | Raised _ => False
    | OutOfFuel => True
    end.
Proof.
  intros gauss fuel scenario duration iteration w Hrdv Htag.
  apply (main_loop_invariant gauss scenario duration
           (fun w' => stdout w' = stdout w)).
  - intros i w1 w2 H1 Hbody. rewrite <- H1.
    apply (loop_body_silent gauss scenario i w1 w2 Hrdv Htag Hbody).
  - reflexivity.
Qed.

Lemma main_loop_silent_for_unknown_witness :
  match main_loop zero_noise 7 "XYZ" 0.25 0 fresh_simulator with
  | Ok _ w' => stdout w' = stdout fresh_simulator
  | Raised _ => False
  | OutOfFuel => True
  end.
Proof.
  apply (main_loop_silent_for_unknown zero_noise 7 "XYZ" 0.25 0
           fresh_simulator);
    discriminate.
Defined.

(** ** The aggregates of the final report *)

Lemma fold_left_Rmax_ge_init (l : list R) (x : R) : x <= fold_left Rmax l x.
Proof.
  revert x. induction l as [| y l IH]; intros x; cbn [fold_left].
  - lra.
  - apply Rle_trans with (Rmax x y); [apply Rmax_l | apply IH].
Qed.

Lemma fold_left_Rmax_ge_elem (l : list R) (x y : R) :
  In y l -> y <= fold_left Rmax l x.
Proof.
  revert x. induction l as [| z l IH]; intros x Hin; [contradiction |].
  cbn [fold_left]. destruct Hin as [-> | Hin].
  - apply Rle_trans with (Rmax x y);
      [apply Rmax_r | apply fold_left_Rmax_ge_init].
  - apply IH, Hin.
Qed.

Lemma fold_left_Rmax_attained (l : list R) (x : R) :
  In (fold_left Rmax l x) (x :: l).
Proof.
  revert x. induction l as [| y l IH]; intros x; cbn [fold_left].
  - left. reflexivity.
  - destruct (IH (Rmax x y)) as [H | H].
    + rewrite <- H. unfold Rmax. destruct (Rle_dec x y).
      * right. left. reflexivity.
      * left. reflexivity.
    + right. right. exact H.
Qed.

Lemma print_final_statistics_report (w : World) (l : list LogEntry)
    (e : LogEntry) (xp xv : R) (xsp xsv : list R) :
  test_log (self w) = l ++ [e] ->
  map position_error (l ++ [e]) = xp :: xsp ->
  map velocity_error (l ++ [e]) = xv :: xsv ->
  print_final_statistics w
    = Ok tt
        (mkWorld (self w) (rng_pos w)
           (stdout w ++
            [FinalStateHeader;
             FinalPosition (log_position e);
             FinalVelocity (velocity (state (self w)));
             FinalPositionError (position_error e);
             FinalVelocityError (velocity_error e);
             StatisticsHeader;
             MeanPositionError
               (Some (np_sum (xp :: xsp) / INR (List.length (xp :: xsp))));
             MaxPositionError (fold_left Rmax xsp xp);
             MeanVelocityError
               (Some (np_sum (xv :: xsv) / INR (List.length (xv :: xsv))));
             MaxVelocityError (fold_left Rmax xsv xv)])).
Proof.
  intros Hlog Hp Hv.
  unfold print_final_statistics, bind at 1, get_self.
  rewrite Hlog.
  replace (Nat.eqb (List.length (l ++ [e])) 0) with false
    by (rewrite length_app; cbn; symmetry; apply Nat.eqb_neq; lia).
  unfold bind at 1. rewrite last_item_snoc.
  rewrite Hp, Hv.
  unfold bind, print, np_max, np_mean, ret; cbn [self rng_pos stdout].
  repeat rewrite <- app_assoc. reflexivity.
Qed.

(** X15: on a non-empty log the report prints, for the position errors and
    for the velocity errors, a maximum that is one of the logged errors and
    that no logged error exceeds; the simulator is left as it was. *)
Theorem print_final_statistics_maxima :
  forall (w : World) (l : list LogEntry) (e : LogEntry),
    test_log (self w) = l ++ [e] ->
    exists (max_pos max_vel : R) (w' : World),
      print_final_statistics w = Ok tt w' /\
      self w' = self w /\
      In (MaxPositionError max_pos) (stdout w') /\
      In (MaxVelocityError max_vel) (stdout w') /\
      In max_pos (map position_error (l ++ [e])) /\
      In max_vel (map velocity_error (l ++ [e])) /\
      (forall e' : LogEntry,
         In e' (l ++ [e]) ->
         position_error e' <= max_pos /\ velocity_error e' <= max_vel).
Proof.
  intros w l e Hlog.
  destruct (map position_error (l ++ [e])) as [| xp xsp] eqn:Hp;
    [destruct l; discriminate |].
  destruct (map velocity_error (l ++ [e])) as [| xv xsv] eqn:Hv;
    [destruct l; discriminate |].
  assert (Hupp : forall y : R, In y (xp :: xsp) -> y <= fold_left Rmax xsp xp).
  { intros y [<- | Hy];
      [apply fold_left_Rmax_ge_init | apply fold_left_Rmax_ge_elem, Hy]. }
  assert (Hupv : forall y : R, In y (xv :: xsv) -> y <= fold_left Rmax xsv xv).
  { intros y [<- | Hy];
      [apply fold_left_Rmax_ge_init | apply fold_left_Rmax_ge_elem, Hy]. }
  do 3 eexists.
  split; [apply (print_final_statistics_report w l e xp xv xsp xsv Hlog Hp Hv) |].
  cbn [self stdout].
  split; [reflexivity |].
  split; [apply in_or_app; right; cbn; tauto |].
  split; [apply in_or_app; right; cbn; tauto |].
  split; [apply fold_left_Rmax_attained |].
  split; [apply fold_left_Rmax_attained |].
  intros e' He'. split.
  - apply Hupp. rewrite <- Hp. apply in_map, He'.
  - apply Hupv. rewrite <- Hv. apply in_map, He'.
Qed.

Lemma print_final_statistics_maxima_witness :
  exists (max_pos max_vel : R) (w' : World),
    print_final_statistics other_used_simulator = Ok tt w' /\
    self w' = self other_used_simulator /\
    In (MaxPositionError max_pos) (stdout w') /\
    In (MaxVelocityError max_vel) (stdout w') /\
    In max_pos (map position_error ([] ++ [other_entry])) /\
    In max_vel (map velocity_error ([] ++ [other_entry])) /\
    (forall e' : LogEntry,
       In e' ([] ++ [other_entry]) ->
       position_error e' <= max_pos /\ velocity_error e' <= max_vel).
Proof.
  apply (print_final_statistics_maxima other_used_simulator [] other_entry).
  reflexivity.
Defined.

(** ** Equilibrium *)

Lemma wrap_angle_0 : wrap_angle 0 = 0.
Proof. apply wrap_angle_fixes. pose proof PI_RGT_0. lra. Qed.

(** X16: the control law commands nothing at the target: when the current
    state equals the desired state both thrust and torque are zero, and
    applying that command leaves the simulator unchanged. *)
Theorem compute_control_at_target :
  forall (st : SpacecraftState) (w : World),
    compute_control st st = zero_commands /\
    apply_actuator_commands (compute_control st st) w = Ok tt w.
Proof.
  intros st w.
  assert (H : compute_control st st = zero_commands).
  { unfold compute_control, zero_commands, np_zeros3,
      Kp_pos, Kd_pos, Kp_att, Kd_att.
    f_equal; vec_ring. }
  split; [exact H |].
  rewrite H, apply_actuator_commands_spec.
  destruct w as [[d t [ps v a o] l] r out].
  cbn [self rng_pos stdout dt time state test_log position velocity
       attitude angular_velocity zero_commands thrust torque].
  do 3 f_equal. apply state_eq;
    cbn [position velocity attitude angular_velocity];
    try reflexivity; unfold np_zeros3; vec_ring.
Qed.

(** X17: the rendezvous target is an equilibrium of the noise-free loop: a
    simulator at rest at (20, 0, 0) km with zero attitude is left in exactly
    that state by an iteration of scenario RDV without noise (only the
    time, the log and the position in the random source advance), the
    logged errors and thrust are zero, and the RDV check then succeeds. *)
Theorem rendezvous_target_is_fixed :
  forall w : World,
    state (self w) = at_target ->
    exists w' : World,
      sense_to_log zero_noise "RDV" w = Ok tt w' /\
      state (self w') = at_target /\
      time (self w') = time (self w) + dt (self w) /\
      (exists e : LogEntry,
         test_log (self w') = test_log (self w) ++ [e] /\
         position_error e = 0 /\ velocity_error e = 0 /\
         thrust_magnitude e = 0) /\
      check_success_criteria "RDV" w' = Ok true w'.
Proof.
  intros w Hst.
  set (p := rng_pos w).
  assert (Hnorm0 : norm np_zeros3 = 0).
  { unfold norm, np_zeros3; cbn [vx vy vz].
    replace (0 * 0 + 0 * 0 + 0 * 0) with 0 by ring. apply sqrt_0. }
  assert (Hv0 : forall u : Vec3, u -v u = np_zeros3)
    by (intros u; unfold np_zeros3; vec_ring).
  assert (Hs0 : forall (k : R) (u : Vec3), u +v k *v np_zeros3 = u)
    by (intros k u; unfold np_zeros3; vec_ring).
  assert (Hw0 : vmap wrap_angle np_zeros3 = np_zeros3).
  { unfold np_zeros3, vmap; cbn [vx vy vz]. rewrite wrap_angle_0.
    reflexivity. }
  assert (Hcam : position at_target
                 +v 0.001 *v np_array (zero_noise (10 + p)%nat)
                                      (zero_noise (11 + p)%nat)
                                      (zero_noise (12 + p)%nat)
                 = np_array 20 0 0)
    by (unfold zero_noise; vec_ring).
  assert (Hstar : attitude at_target
                  +v 1e-6 *v np_array (zero_noise (6 + p)%nat)
                                      (zero_noise (7 + p)%nat)
                                      (zero_noise (8 + p)%nat)
                  = np_zeros3)
    by (unfold zero_noise, np_zeros3; vec_ring).
  assert (Hctl : compute_control at_target at_target = zero_commands).
  { unfold compute_control, zero_commands, np_zeros3,
      Kp_pos, Kd_pos, Kp_att, Kd_att.
    f_equal; vec_ring. }
  pose proof (sense_to_log_closed_form zero_noise "RDV" w) as Hrun.
  cbn zeta in Hrun. fold p in Hrun. rewrite Hst, Hcam, Hstar in Hrun.
  change (mkState (np_array 20 0 0) (velocity at_target) np_zeros3
                  (angular_velocity at_target))
    with at_target in Hrun.
  change (compute_guidance at_target "RDV") with at_target in Hrun.
  rewrite Hctl in Hrun.
  cbn [zero_commands thrust torque] in Hrun.
  change (velocity at_target) with np_zeros3 in Hrun.
  change (angular_velocity at_target) with np_zeros3 in Hrun.
  change (attitude at_target) with np_zeros3 in Hrun.
  change (position at_target) with (np_array 20 0 0) in Hrun.
  rewrite !Hs0, Hw0, !Hv0, Hnorm0 in Hrun.
  eexists. split; [exact Hrun |].
  cbn [self state dt time test_log].
  split; [reflexivity |].
  split; [reflexivity |].
  split.
  { eexists. split; [reflexivity |].
    cbn [position_error velocity_error thrust_magnitude].
    split; [reflexivity |]. split; reflexivity. }
  rewrite check_success_criteria_RDV. cbn zeta.
  cbn [self state position]. rewrite Hv0, Hnorm0.
  destruct (Rgt_dec 0 10); [lra | reflexivity].
Qed.

Lemma rendezvous_target_is_fixed_witness :
  exists w' : World,
    sense_to_log zero_noise "RDV" (mkWorld (mkSim 0.1 0 at_target []) 0 [])
      = Ok tt w' /\
    state (self w') = at_target /\
    time (self w') = 0 + 0.1 /\
    (exists e : LogEntry,
       test_log (self w') = [] ++ [e] /\
       position_error e = 0 /\ velocity_error e = 0 /\
       thrust_magnitude e = 0) /\
    check_success_criteria "RDV" w' = Ok true w'.
Proof.
  apply (rendezvous_target_is_fixed (mkWorld (mkSim 0.1 0 at_target []) 0 [])).
  reflexivity.
Defined.
